(** * blastcam: command merge, telemetry and astrometry solve of the star camera

    A shallow embedding of [commands.c] (the client session, [processClient])
    and [astrometry.c] ([lostInSpace]), with the constants and the
    [blob_params] layout of [camera.h].

    C scalars are modelled by value: [int] as [Z], [float] and [double] as
    IEEE-754 numbers ([spec_float], binary32 and binary64), with the
    conversions and comparisons C inserts written out.  The libraries the
    program links against (astrometry.net, SOFA, libm, the lens adapter) are
    interfaces, given as type classes. *)

From Stdlib Require Import ZArith List Bool String Ascii Lia.
From Stdlib Require Import Floats.SpecFloat.
From Stdlib Require Import DecimalString.
Import ListNotations.
Open Scope Z_scope.

(** ** C scalars *)

Definition double : Type := spec_float.
Definition float : Type := spec_float.

(** [(double) z] and [(float) z] for an integer [z]. *)
Definition D_of_Z (z : Z) : double := binary_normalize 53 1024 z 0 false.
Definition F_of_Z (z : Z) : float := binary_normalize 24 128 z 0 false.

Definition Dadd : double -> double -> double := SFadd 53 1024.
Definition Dsub : double -> double -> double := SFsub 53 1024.
Definition Dmul : double -> double -> double := SFmul 53 1024.
Definition Ddiv : double -> double -> double := SFdiv 53 1024.

(** C comparisons; every comparison with a NaN is false, except [!=]. *)
Definition c_ge (x y : spec_float) : bool := SFleb y x.
Definition c_lt (x y : spec_float) : bool := SFltb x y.
Definition c_ne (x y : spec_float) : bool := negb (SFeqb x y).

Definition INT_MIN : Z := - 2 ^ 31.
Definition INT_MAX : Z := 2 ^ 31 - 1.

(** The integer part of a floating-point number, rounded toward zero. *)
Definition trunc (x : spec_float) : option Z :=
  match x with
  | S754_zero _ => Some 0
  | S754_finite s m e =>
      let mag := Z.shiftl (Zpos m) e in
      Some (if s then - mag else mag)
  | S754_infinity _ | S754_nan => None
  end.

(** [(int) x] for a [float] or [double] [x]: truncation.  Out of the range of
    [int] (and for NaN and the infinities) the C standard leaves the result
    undefined; the model returns what the x86-64 conversion instruction
    gives, [INT_MIN]. *)
Definition int_of_float (x : spec_float) : Z :=
  match trunc x with
  | Some z => if (INT_MIN <=? z) && (z <=? INT_MAX) then z else INT_MIN
  | None => INT_MIN
  end.

(** [(int) n] for an [unsigned] [n]. *)
Definition int_of_unsigned (n : Z) : Z :=
  let n := n mod 2 ^ 32 in
  if n <? 2 ^ 31 then n else n - 2 ^ 32.

(** [ceil] of libm on a [double]: the least integral value not below [x]. *)
Definition ceil (x : double) : double :=
  match x with
  | S754_finite s m e =>
      if 0 <=? e then x
      else
        let q := Z.shiftr (Zpos m) (- e) in
        let exact := Z.shiftl q (- e) =? Zpos m in
        if s then (if q =? 0 then S754_zero true else binary_normalize 53 1024 (- q) 0 true)
        else binary_normalize 53 1024 (if exact then q else q + 1) 0 false
  | _ => x
  end.

(** A C array read [a[i]]. *)
Definition idx (a : list float) (i : nat) : float := nth i a (S754_zero false).

(** ** camera.h *)

Definition CAMERA_WIDTH : Z := 1936.
Definition CAMERA_HEIGHT : Z := 1216.
Definition CAMERA_MARGIN : Z := 0.
Definition MIN_PS : double := D_of_Z 6.
Definition MAX_PS : double := Ddiv (D_of_Z 13) (D_of_Z 2).
Definition dut1 : double := Ddiv (D_of_Z (-23)) (D_of_Z 100).

Module blob_params.
Record t : Type := mk {
  spike_limit : Z;
  dynamic_hot_pixels : Z;
  r_smooth : Z;
  high_pass_filter : Z;
  r_high_pass_filter : Z;
  centroid_search_border : Z;
  filter_return_image : Z;
  n_sigma : float;
  unique_star_spacing : Z;
  make_static_hp_mask : Z;
  use_static_hp_mask : Z }.

Definition set_spike_limit (v : Z) (b : t) : t :=
  mk v (dynamic_hot_pixels b) (r_smooth b) (high_pass_filter b) (r_high_pass_filter b)
     (centroid_search_border b) (filter_return_image b) (n_sigma b) (unique_star_spacing b)
     (make_static_hp_mask b) (use_static_hp_mask b).
Definition set_dynamic_hot_pixels (v : Z) (b : t) : t :=
  mk (spike_limit b) v (r_smooth b) (high_pass_filter b) (r_high_pass_filter b)
     (centroid_search_border b) (filter_return_image b) (n_sigma b) (unique_star_spacing b)
     (make_static_hp_mask b) (use_static_hp_mask b).
Definition set_r_smooth (v : Z) (b : t) : t :=
  mk (spike_limit b) (dynamic_hot_pixels b) v (high_pass_filter b) (r_high_pass_filter b)
     (centroid_search_border b) (filter_return_image b) (n_sigma b) (unique_star_spacing b)
     (make_static_hp_mask b) (use_static_hp_mask b).
Definition set_high_pass_filter (v : Z) (b : t) : t :=
  mk (spike_limit b) (dynamic_hot_pixels b) (r_smooth b) v (r_high_pass_filter b)
     (centroid_search_border b) (filter_return_image b) (n_sigma b) (unique_star_spacing b)
     (make_static_hp_mask b) (use_static_hp_mask b).
Definition set_r_high_pass_filter (v : Z) (b : t) : t :=
  mk (spike_limit b) (dynamic_hot_pixels b) (r_smooth b) (high_pass_filter b) v
     (centroid_search_border b) (filter_return_image b) (n_sigma b) (unique_star_spacing b)
     (make_static_hp_mask b) (use_static_hp_mask b).
Definition set_centroid_search_border (v : Z) (b : t) : t :=
  mk (spike_limit b) (dynamic_hot_pixels b) (r_smooth b) (high_pass_filter b) (r_high_pass_filter b)
     v (filter_return_image b) (n_sigma b) (unique_star_spacing b)
     (make_static_hp_mask b) (use_static_hp_mask b).
Definition set_filter_return_image (v : Z) (b : t) : t :=
  mk (spike_limit b) (dynamic_hot_pixels b) (r_smooth b) (high_pass_filter b) (r_high_pass_filter b)
     (centroid_search_border b) v (n_sigma b) (unique_star_spacing b)
     (make_static_hp_mask b) (use_static_hp_mask b).
Definition set_n_sigma (v : float) (b : t) : t :=
  mk (spike_limit b) (dynamic_hot_pixels b) (r_smooth b) (high_pass_filter b) (r_high_pass_filter b)
     (centroid_search_border b) (filter_return_image b) v (unique_star_spacing b)
     (make_static_hp_mask b) (use_static_hp_mask b).
Definition set_unique_star_spacing (v : Z) (b : t) : t :=
  mk (spike_limit b) (dynamic_hot_pixels b) (r_smooth b) (high_pass_filter b) (r_high_pass_filter b)
     (centroid_search_border b) (filter_return_image b) (n_sigma b) v
     (make_static_hp_mask b) (use_static_hp_mask b).
Definition set_make_static_hp_mask (v : Z) (b : t) : t :=
  mk (spike_limit b) (dynamic_hot_pixels b) (r_smooth b) (high_pass_filter b) (r_high_pass_filter b)
     (centroid_search_border b) (filter_return_image b) (n_sigma b) (unique_star_spacing b)
     v (use_static_hp_mask b).
Definition set_use_static_hp_mask (v : Z) (b : t) : t :=
  mk (spike_limit b) (dynamic_hot_pixels b) (r_smooth b) (high_pass_filter b) (r_high_pass_filter b)
     (centroid_search_border b) (filter_return_image b) (n_sigma b) (unique_star_spacing b)
     (make_static_hp_mask b) v.
End blob_params.

(** ** astrometry.h and lens_adapter.h *)

Module astrometry.
(** Modelled from the spec: [astrometry.h], which declares [struct astrometry],
    is not among the sources.  The fields and their order are those of the
    initialiser of [all_astro_params] in [astrometry.c]; all are [double]. *)
Record t : Type := mk {
  rawtime : double;
  logodds : double;
  latitude : double;
  longitude : double;
  hm : double;
  ra : double;
  dec : double;
  fr : double;
  ps : double;
  ir : double;
  alt : double;
  az : double }.

Definition set_logodds (v : double) (a : t) : t :=
  mk (rawtime a) v (latitude a) (longitude a) (hm a) (ra a) (dec a) (fr a) (ps a) (ir a) (alt a) (az a).
Definition set_latitude (v : double) (a : t) : t :=
  mk (rawtime a) (logodds a) v (longitude a) (hm a) (ra a) (dec a) (fr a) (ps a) (ir a) (alt a) (az a).
Definition set_longitude (v : double) (a : t) : t :=
  mk (rawtime a) (logodds a) (latitude a) v (hm a) (ra a) (dec a) (fr a) (ps a) (ir a) (alt a) (az a).
Definition set_hm (v : double) (a : t) : t :=
  mk (rawtime a) (logodds a) (latitude a) (longitude a) v (ra a) (dec a) (fr a) (ps a) (ir a) (alt a) (az a).
Definition set_ra (v : double) (a : t) : t :=
  mk (rawtime a) (logodds a) (latitude a) (longitude a) (hm a) v (dec a) (fr a) (ps a) (ir a) (alt a) (az a).
Definition set_dec (v : double) (a : t) : t :=
  mk (rawtime a) (logodds a) (latitude a) (longitude a) (hm a) (ra a) v (fr a) (ps a) (ir a) (alt a) (az a).
Definition set_fr (v : double) (a : t) : t :=
  mk (rawtime a) (logodds a) (latitude a) (longitude a) (hm a) (ra a) (dec a) v (ps a) (ir a) (alt a) (az a).
Definition set_ps (v : double) (a : t) : t :=
  mk (rawtime a) (logodds a) (latitude a) (longitude a) (hm a) (ra a) (dec a) (fr a) v (ir a) (alt a) (az a).
Definition set_ir (v : double) (a : t) : t :=
  mk (rawtime a) (logodds a) (latitude a) (longitude a) (hm a) (ra a) (dec a) (fr a) (ps a) v (alt a) (az a).
Definition set_alt (v : double) (a : t) : t :=
  mk (rawtime a) (logodds a) (latitude a) (longitude a) (hm a) (ra a) (dec a) (fr a) (ps a) (ir a) v (az a).
Definition set_az (v : double) (a : t) : t :=
  mk (rawtime a) (logodds a) (latitude a) (longitude a) (hm a) (ra a) (dec a) (fr a) (ps a) (ir a) (alt a) v.
End astrometry.

Module camera_params.
(** Modelled from the spec: [lens_adapter.h], which declares
    [struct camera_params], is not among the sources.  The fields are the ones
    [processClient] and [lostInSpace] use (the spec's CameraParams group), each
    with the C type of the command field assigned to it. *)
Record t : Type := mk {
  exposure_time : double;
  change_exposure_bool : Z;
  focus_mode : Z;
  start_focus_pos : Z;
  end_focus_pos : Z;
  focus_step : Z;
  focus_inf : Z;
  focus_position : float;
  max_aperture : Z;
  aperture_steps : Z }.

Definition set_exposure_time (v : double) (p : t) : t :=
  mk v (change_exposure_bool p) (focus_mode p) (start_focus_pos p) (end_focus_pos p)
     (focus_step p) (focus_inf p) (focus_position p) (max_aperture p) (aperture_steps p).
Definition set_change_exposure_bool (v : Z) (p : t) : t :=
  mk (exposure_time p) v (focus_mode p) (start_focus_pos p) (end_focus_pos p)
     (focus_step p) (focus_inf p) (focus_position p) (max_aperture p) (aperture_steps p).
Definition set_focus_mode (v : Z) (p : t) : t :=
  mk (exposure_time p) (change_exposure_bool p) v (start_focus_pos p) (end_focus_pos p)
     (focus_step p) (focus_inf p) (focus_position p) (max_aperture p) (aperture_steps p).
Definition set_start_focus_pos (v : Z) (p : t) : t :=
  mk (exposure_time p) (change_exposure_bool p) (focus_mode p) v (end_focus_pos p)
     (focus_step p) (focus_inf p) (focus_position p) (max_aperture p) (aperture_steps p).
Definition set_end_focus_pos (v : Z) (p : t) : t :=
  mk (exposure_time p) (change_exposure_bool p) (focus_mode p) (start_focus_pos p) v
     (focus_step p) (focus_inf p) (focus_position p) (max_aperture p) (aperture_steps p).
Definition set_focus_step (v : Z) (p : t) : t :=
  mk (exposure_time p) (change_exposure_bool p) (focus_mode p) (start_focus_pos p) (end_focus_pos p)
     v (focus_inf p) (focus_position p) (max_aperture p) (aperture_steps p).
Definition set_focus_inf (v : Z) (p : t) : t :=
  mk (exposure_time p) (change_exposure_bool p) (focus_mode p) (start_focus_pos p) (end_focus_pos p)
     (focus_step p) v (focus_position p) (max_aperture p) (aperture_steps p).
Definition set_focus_position (v : float) (p : t) : t :=
  mk (exposure_time p) (change_exposure_bool p) (focus_mode p) (start_focus_pos p) (end_focus_pos p)
     (focus_step p) (focus_inf p) v (max_aperture p) (aperture_steps p).
Definition set_max_aperture (v : Z) (p : t) : t :=
  mk (exposure_time p) (change_exposure_bool p) (focus_mode p) (start_focus_pos p) (end_focus_pos p)
     (focus_step p) (focus_inf p) (focus_position p) v (aperture_steps p).
Definition set_aperture_steps (v : Z) (p : t) : t :=
  mk (exposure_time p) (change_exposure_bool p) (focus_mode p) (start_focus_pos p) (end_focus_pos p)
     (focus_step p) (focus_inf p) (focus_position p) (max_aperture p) v.
End camera_params.

(** Modelled from the spec: [lens_adapter.c] is not among the sources.  Its
    [adjustCameraHardware] pushes the exposure, focus and aperture requests of
    [all_camera_params] to the hardware and may write that group back; it is
    an external collaborator, any function on the group. *)
Class LensAdapter : Type := {
  adjustCameraHardware : camera_params.t -> camera_params.t }.

(** ** commands.c: the wire records *)

Module commands.
Record t : Type := mk {
  logodds : double;
  latitude : double;
  longitude : double;
  height : double;
  exposure : double;
  focus_pos : float;
  focus_mode : Z;
  start_focus_pos : Z;
  end_focus_pos : Z;
  focus_step : Z;
  set_focus_inf : Z;
  aperture_steps : Z;
  set_max_aperture : Z;
  make_hp : Z;
  use_hp : Z;
  blob_params : list float }.
End commands.

Module telemetry.
Record t : Type := mk {
  astrom : astrometry.t;
  cam_settings : camera_params.t;
  current_blob_params : blob_params.t }.
End telemetry.

(** The three shared groups (the spec's StateStore). *)
Record StateStore : Type := mkStore {
  all_astro_params : astrometry.t;
  all_camera_params : camera_params.t;
  all_blob_params : blob_params.t }.

(** ** commands.c: the merge of a command, [processClient] lines 152-217 *)

(** Lines 152-155. *)
Definition merge_astro (c : commands.t) (a : astrometry.t) : astrometry.t :=
  let a := astrometry.set_logodds (commands.logodds c) a in
  let a := astrometry.set_latitude (commands.latitude c) a in
  let a := astrometry.set_longitude (commands.longitude c) a in
  let a := astrometry.set_hm (commands.height c) a in
  a.

(** The test of line 157. *)
Definition exposure_differs (c : commands.t) (p : camera_params.t) : bool :=
  c_ne (ceil (commands.exposure c)) (ceil (camera_params.exposure_time p)).

(** Lines 157-179: the record handed to [adjustCameraHardware]. *)
Definition merge_camera (c : commands.t) (p : camera_params.t) : camera_params.t :=
  let p :=
    if exposure_differs c p then
      let p := camera_params.set_exposure_time (commands.exposure c) p in
      let p := camera_params.set_change_exposure_bool 1 p in
      p
    else p in
  let p := camera_params.set_focus_mode (commands.focus_mode c) p in
  let p := camera_params.set_start_focus_pos (commands.start_focus_pos c) p in
  let p := camera_params.set_end_focus_pos (commands.end_focus_pos c) p in
  let p := camera_params.set_focus_step (commands.focus_step c) p in
  let p := camera_params.set_focus_inf (commands.set_focus_inf c) p in
  let p :=
    if c_ne (commands.focus_pos c) (F_of_Z (-1)) then
      camera_params.set_focus_position (commands.focus_pos c) p
    else p in
  let p := camera_params.set_max_aperture (commands.set_max_aperture c) p in
  let p := camera_params.set_aperture_steps (commands.aperture_steps c) p in
  p.

(** Lines 186-217. *)
Definition merge_blob (c : commands.t) (b : blob_params.t) : blob_params.t :=
  let bp := commands.blob_params c in
  let b := blob_params.set_make_static_hp_mask (commands.make_hp c) b in
  let b := blob_params.set_use_static_hp_mask (commands.use_hp c) b in
  let b :=
    if c_ge (idx bp 0) (F_of_Z 0) then blob_params.set_spike_limit (int_of_float (idx bp 0)) b
    else b in
  let b := blob_params.set_dynamic_hot_pixels (int_of_float (idx bp 1)) b in
  let b :=
    if c_ge (idx bp 2) (F_of_Z 0) then blob_params.set_r_smooth (int_of_float (idx bp 2)) b
    else b in
  let b := blob_params.set_high_pass_filter (int_of_float (idx bp 3)) b in
  let b :=
    if c_ge (idx bp 4) (F_of_Z 0) then blob_params.set_r_high_pass_filter (int_of_float (idx bp 4)) b
    else b in
  let b :=
    if c_ge (idx bp 5) (F_of_Z 0) then blob_params.set_centroid_search_border (int_of_float (idx bp 5)) b
    else b in
  let b := blob_params.set_filter_return_image (int_of_float (idx bp 6)) b in
  let b :=
    if c_ge (idx bp 7) (F_of_Z 0) then blob_params.set_n_sigma (idx bp 7) b
    else b in
  let b :=
    if c_ge (idx bp 8) (F_of_Z 0) then blob_params.set_unique_star_spacing (int_of_float (idx bp 8)) b
    else b in
  b.

(** Lines 152-217 as a whole: what one session does to the three groups
    between taking and releasing [command_lock]. *)
Definition applyCommand `{LensAdapter} (c : commands.t) (s : StateStore) : StateStore :=
  let astro := merge_astro c (all_astro_params s) in
  let cam := merge_camera c (all_camera_params s) in
  let cam := adjustCameraHardware cam in
  let blob := merge_blob c (all_blob_params s) in
  mkStore astro cam blob.

(** ** The packed wire layout

    C types with their size and alignment under [#pragma pack(n)]: a member
    is aligned to the smaller of [n] and its own alignment, and a struct is
    padded at the end to its alignment. *)

#[local] Set Warnings "-register-all".

Inductive ctype : Type :=
| Tint
| Tfloat
| Tdouble
| Tstruct (pack : Z) (members : list ctype).

Definition align_up (off a : Z) : Z := (off + a - 1) / a * a.

(** Size and alignment of a type. *)
Fixpoint size_align (t : ctype) : Z * Z :=
  match t with
  | Tint => (4, 4)
  | Tfloat => (4, 4)
  | Tdouble => (8, 8)
  | Tstruct pack ms =>
      let fix go (ms : list ctype) (off al : Z) : Z * Z :=
        match ms with
        | [] => (align_up off al, al)
        | m :: ms' =>
            let (sz, a0) := size_align m in
            let a := Z.min pack a0 in
            go ms' (align_up off a + sz) (Z.max al a)
        end in
      go ms 0 1
  end.

Definition sizeof (t : ctype) : Z := fst (size_align t).

(** The layout of the members of a struct from offset [off] on, as
    [size_align] computes it. *)
Definition members_layout (pack : Z) : list ctype -> Z -> Z -> Z * Z :=
  fix go (ms : list ctype) (off al : Z) : Z * Z :=
    match ms with
    | [] => (align_up off al, al)
    | m :: ms' =>
        let (sz, a0) := size_align m in
        let a := Z.min pack a0 in
        go ms' (align_up off a + sz) (Z.max al a)
    end.

(** [struct blob_params] of camera.h, inside [#pragma pack(push, 1)]. *)
Definition struct_blob_params : ctype :=
  Tstruct 1 [Tint; Tint; Tint; Tint; Tint; Tint; Tint; Tfloat; Tint; Tint; Tint].

(** Modelled from the spec: the declarations of [struct astrometry] and
    [struct camera_params] are not among the sources; the members are those of
    the records above, packed like the other wire records. *)
Definition struct_astrometry : ctype :=
  Tstruct 1 [Tdouble; Tdouble; Tdouble; Tdouble; Tdouble; Tdouble;
             Tdouble; Tdouble; Tdouble; Tdouble; Tdouble; Tdouble].

Definition struct_camera_params : ctype :=
  Tstruct 1 [Tdouble; Tint; Tint; Tint; Tint; Tint; Tint; Tfloat; Tint; Tint].

(** [struct telemetry] of commands.c, inside [#pragma pack(push, 1)]. *)
Definition struct_telemetry : ctype :=
  Tstruct 1 [struct_astrometry; struct_camera_params; struct_blob_params].

(** Object representations (little-endian, IEEE-754 interchange formats). *)
Definition byte_of_Z (z : Z) : Byte.byte :=
  match Byte.of_N (Z.to_N (z mod 256)) with
  | Some b => b
  | None => Byte.x00
  end.

Fixpoint le_bytes (n : nat) (z : Z) : list Byte.byte :=
  match n with
  | O => []
  | S k => byte_of_Z z :: le_bytes k (z / 256)
  end.

(** The bit pattern of a number in the format with [prec] bits of precision
    and infinities at exponent [emax]. *)
Definition bits_of (prec emax : Z) (x : spec_float) : Z :=
  let mw := prec - 1 in
  let sign (s : bool) := if s then 2 ^ mw * (2 * emax) else 0 in
  let top := (2 * emax - 1) * 2 ^ mw in
  match x with
  | S754_zero s => sign s
  | S754_infinity s => sign s + top
  | S754_nan => top + 2 ^ (mw - 1)
  | S754_finite s m e =>
      if Zpos m <? 2 ^ mw then sign s + Zpos m
      else sign s + (e - emin prec emax + 1) * 2 ^ mw + (Zpos m - 2 ^ mw)
  end.

Definition bytes_of_int (z : Z) : list Byte.byte := le_bytes 4 z.
Definition bytes_of_float (x : float) : list Byte.byte := le_bytes 4 (bits_of 24 128 x).
Definition bytes_of_double (x : double) : list Byte.byte := le_bytes 8 (bits_of 53 1024 x).

Definition bytes_of_astrometry (a : astrometry.t) : list Byte.byte :=
  bytes_of_double (astrometry.rawtime a) ++ bytes_of_double (astrometry.logodds a) ++
  bytes_of_double (astrometry.latitude a) ++ bytes_of_double (astrometry.longitude a) ++
  bytes_of_double (astrometry.hm a) ++ bytes_of_double (astrometry.ra a) ++
  bytes_of_double (astrometry.dec a) ++ bytes_of_double (astrometry.fr a) ++
  bytes_of_double (astrometry.ps a) ++ bytes_of_double (astrometry.ir a) ++
  bytes_of_double (astrometry.alt a) ++ bytes_of_double (astrometry.az a).

Definition bytes_of_camera_params (p : camera_params.t) : list Byte.byte :=
  bytes_of_double (camera_params.exposure_time p) ++
  bytes_of_int (camera_params.change_exposure_bool p) ++
  bytes_of_int (camera_params.focus_mode p) ++
  bytes_of_int (camera_params.start_focus_pos p) ++
  bytes_of_int (camera_params.end_focus_pos p) ++
  bytes_of_int (camera_params.focus_step p) ++
  bytes_of_int (camera_params.focus_inf p) ++
  bytes_of_float (camera_params.focus_position p) ++
  bytes_of_int (camera_params.max_aperture p) ++
  bytes_of_int (camera_params.aperture_steps p).

Definition bytes_of_blob_params (b : blob_params.t) : list Byte.byte :=
  bytes_of_int (blob_params.spike_limit b) ++
  bytes_of_int (blob_params.dynamic_hot_pixels b) ++
  bytes_of_int (blob_params.r_smooth b) ++
  bytes_of_int (blob_params.high_pass_filter b) ++
  bytes_of_int (blob_params.r_high_pass_filter b) ++
  bytes_of_int (blob_params.centroid_search_border b) ++
  bytes_of_int (blob_params.filter_return_image b) ++
  bytes_of_float (blob_params.n_sigma b) ++
  bytes_of_int (blob_params.unique_star_spacing b) ++
  bytes_of_int (blob_params.make_static_hp_mask b) ++
  bytes_of_int (blob_params.use_static_hp_mask b).

(** The bytes of a [struct telemetry] object: its three members in
    declaration order. *)
Definition bytes_of_telemetry (t : telemetry.t) : list Byte.byte :=
  bytes_of_astrometry (telemetry.astrom t) ++
  bytes_of_camera_params (telemetry.cam_settings t) ++
  bytes_of_blob_params (telemetry.current_blob_params t).

(** ** commands.c: one cycle of [processClient] *)

(** The globals of commands.c a session touches, with the three groups. *)
Record globals : Type := mkGlobals {
  store : StateStore;
  all_cmds : commands.t;
  all_data : telemetry.t;
  command_lock : Z }.

(** What the socket and the camera give a session during one cycle. *)
Record cycle_io : Type := mkIO {
  recv_status : Z;                 (* the value [recvfrom] returns *)
  recv_buffer : commands.t;        (* [all_cmds] as a [recvfrom] that did not fail leaves it *)
  send_telemetry_status : Z;       (* the value the first [send] returns *)
  send_image_status : Z;           (* the value the second [send] returns *)
  camera_raw : nat -> Byte.byte }. (* the frame buffer [camera_raw] points to, by offset *)

(** How a cycle ends: the loop goes round again, or [break] and [close]. *)
Inductive session : Type := Open | Closed.

(** Lines 223-225: the three [memcpy] into [all_data]. *)
Definition snapshot (s : StateStore) : telemetry.t :=
  telemetry.mk (all_astro_params s) (all_camera_params s) (all_blob_params s).

(** [len] bytes read from a buffer in memory. *)
Definition read_bytes (mem : nat -> Byte.byte) (len : Z) : list Byte.byte :=
  map mem (seq 0 (Z.to_nat len)).

(** The bytes an object of [len] bytes starts with. *)
Definition object_bytes (repr : list Byte.byte) (len : Z) : list Byte.byte :=
  firstn (Z.to_nat len) repr.

(** The bytes a [send] that returned [ret] has put on the wire. *)
Definition sent (buf : list Byte.byte) (ret : Z) : list Byte.byte :=
  firstn (Z.to_nat ret) buf.

(** Lines 139-221.  [None]: the session is still polling [command_lock]
    (a session running alone never sees a set flag cleared). *)
Definition receive_and_apply `{LensAdapter} (io : cycle_io) (g : globals) : option globals :=
  if recv_status io =? -1 then Some g
  else
    let g := mkGlobals (store g) (recv_buffer io) (all_data g) (command_lock g) in
    if negb (command_lock g =? 0) then None
    else
      let g := mkGlobals (store g) (all_cmds g) (all_data g) 1 in
      let g := mkGlobals (applyCommand (all_cmds g) (store g)) (all_cmds g) (all_data g)
                         (command_lock g) in
      let g := mkGlobals (store g) (all_cmds g) (all_data g) 0 in
      Some g.

(** Lines 223-242: the globals after the cycle, the bytes put on the wire,
    and whether the session goes on. *)
Definition transmit (io : cycle_io) (g : globals) : globals * list Byte.byte * session :=
  let g := mkGlobals (store g) (all_cmds g) (snapshot (store g)) (command_lock g) in
  let packet := object_bytes (bytes_of_telemetry (all_data g)) (sizeof struct_telemetry) in
  if send_telemetry_status io <=? 0 then (g, [], Closed)
  else
    let wire := sent packet (send_telemetry_status io) in
    let image := read_bytes (camera_raw io) (CAMERA_WIDTH * CAMERA_HEIGHT) in
    if send_image_status io <=? 0 then (g, wire, Closed)
    else (g, wire ++ sent image (send_image_status io), Open).

(** The body of the [while (1)] loop, lines 138-242. *)
Definition processClient_cycle `{LensAdapter} (io : cycle_io) (g : globals)
  : option (globals * list Byte.byte * session) :=
  match receive_and_apply io g with
  | None => None
  | Some g => Some (transmit io g)
  end.

(** What the wire has carried once the later cycles are added to it. *)
Definition and_then (wire : list Byte.byte)
  (later : option (globals * list Byte.byte * session))
  : option (globals * list Byte.byte * session) :=
  match later with
  | None => None
  | Some (g, wire', st) => Some (g, wire ++ wire', st)
  end.

(** [processClient], lines 137-245, over the cycles the socket gives it: the
    loop ends at the first cycle whose send fails, and the socket is closed. *)
Fixpoint processClient `{LensAdapter} (ios : list cycle_io) (g : globals)
  : option (globals * list Byte.byte * session) :=
  match ios with
  | [] => Some (g, [], Open)
  | io :: rest =>
      match processClient_cycle io g with
      | None => None
      | Some (g', wire, Closed) => Some (g', wire, Closed)
      | Some (g', wire, Open) => and_then wire (processClient rest g')
      end
  end.

(** [printf] to the terminal ([verifyUserCommands], [verifyTelemetryData] and
    the messages) changes none of the above and is left out. *)

(** ** astrometry.c: the types of the libraries it calls *)

(** astrometry.net's star list: coordinates and fluxes. *)
Record starxy_t : Type := mkStarxy {
  starxy_x : list double;
  starxy_y : list double;
  starxy_flux : list double }.

Record tm : Type := mkTm {
  tm_year : Z; tm_mon : Z; tm_mday : Z; tm_hour : Z; tm_min : Z; tm_sec : Z }.

Record timespec : Type := mkTimespec { tv_sec : Z; tv_nsec : Z }.

Inductive parity_t : Type := PARITY_NORMAL | PARITY_FLIP | PARITY_BOTH.

(** The six values [iauAtco13] returns through its output arguments. *)
Record atco13 : Type := mkAtco13 {
  aob : double; zob : double; hob : double; dob : double; rob : double; eo : double }.

Class LibM : Type := {
  log : double -> double;
  hypot : double -> double -> double }.

(** SOFA.  Each routine gives its status and what its output arguments hold
    after the call; [iauAtco13] takes its eighteen inputs in argument order. *)
Class Sofa : Type := {
  iauDtf2d : string -> Z -> Z -> Z -> Z -> Z -> double -> Z * (double * double);
  iauAtco13 : list double -> Z * atco13;
  iauHd2pa : double -> double -> double -> double }.

(** astrometry.net: a catalog index partition and a solved WCS are opaque. *)
Class AstrometryTypes : Type := {
  index_t : Type;
  tan_t : Type }.

(** The members of astrometry.net's [solver_t] that [lostInSpace] uses. *)
Record solver_t `{AstrometryTypes} : Type := mkSolver {
  funits_lower : double;
  funits_upper : double;
  endobj : Z;
  quadsize_min : double;
  parity : parity_t;
  logratio_tokeep : double;
  logratio_totune : double;
  logratio_toprint : double;
  distance_from_quad_bonus : Z;
  fieldxy : option starxy_t;
  field_minx : double;
  field_maxx : double;
  field_miny : double;
  field_maxy : double;
  indexes : list index_t;
  best_match_solves : bool;
  best_match_wcstan : tan_t }.

Arguments mkSolver {_} _ _ _ _ _ _ _ _ _ _ _ _ _ _ _ _ _.

(** [solver_run] is given by what it leaves in [best_match_solves] and
    [best_match.wcstan]. *)
Class AstrometryNet `{AstrometryTypes} : Type := {
  index_is_within_range : index_t -> double -> double -> double -> bool;
  arcsec2dist : double -> double;
  dist2deg : double -> double;
  starxy_sort_by_flux : starxy_t -> starxy_t;
  solver_run : solver_t -> bool * tan_t;
  tan_pixelxy2radec : tan_t -> double -> double -> double * double;
  tan_pixel_scale : tan_t -> double;
  tan_get_orientation : tan_t -> double }.

(** ** printf conversions used for the observation log *)

Definition digit (d : Z) : ascii := ascii_of_nat (48 + Z.to_nat d).

(** The last [n] decimal digits of [z]. *)
Fixpoint fixed_digits (n : nat) (z : Z) : string :=
  match n with
  | O => EmptyString
  | S k => (fixed_digits k (z / 10) ++ String (digit (z mod 10)) EmptyString)%string
  end.

(** ["%i"]. *)
Definition printf_i (z : Z) : string := NilZero.string_of_int (Z.to_int z).

Definition round_half_even (num den : Z) : Z :=
  let q := num / den in
  match 2 * (num mod den) ?= den with
  | Lt => q
  | Gt => q + 1
  | Eq => if Z.even q then q else q + 1
  end.

(** ["%.pf"] for a positive precision [p], as glibc prints a [double]: the
    exact value rounded to [p] decimals, to nearest and ties to even. *)
Definition printf_f (p : nat) (x : double) : string :=
  let sign (s : bool) : string := if s then "-"%string else EmptyString in
  let scale := 10 ^ Z.of_nat p in
  match x with
  | S754_nan => "nan"%string
  | S754_infinity s => (sign s ++ "inf")%string
  | S754_zero s => (sign s ++ "0." ++ fixed_digits p 0)%string
  | S754_finite s m e =>
      let scaled :=
        if 0 <=? e then Zpos m * 2 ^ e * scale
        else round_half_even (Zpos m * scale) (2 ^ (- e)) in
      (sign s ++ printf_i (scaled / scale) ++ "." ++ fixed_digits p (scaled mod scale))%string
  end.

(** ["%lf"] and ["%f"]: precision 6. *)
Definition printf_lf : double -> string := printf_f 6.

(** [printf_f] gives a NaN as glibc prints one whose sign bit is clear.  A
    [spec_float] keeps no sign for a NaN, and glibc prints the sign: [minus]
    says whether the NaN at hand has it. *)
Definition printf_double (minus : bool) (p : nat) (x : double) : string :=
  match x with
  | S754_nan => if minus then "-nan"%string else "nan"%string
  | _ => printf_f p x
  end.

Fixpoint count_char (c : ascii) (s : string) : nat :=
  match s with
  | EmptyString => O
  | String a s' => (if Ascii.eqb a c then 1 else 0) + count_char c s'
  end.

(** The characters the conversions above can print. *)
Definition numeric_char (c : ascii) : bool :=
  existsb (Ascii.eqb c)
    ["0"; "1"; "2"; "3"; "4"; "5"; "6"; "7"; "8"; "9"; "-"; "."; "i"; "n"; "f"; "a"]%char.

Fixpoint all_numeric (s : string) : bool :=
  match s with
  | EmptyString => true
  | String a s' => numeric_char a && all_numeric s'
  end.

Definition newline : ascii := "010"%char.

(** The number of line terminators in a text: the lines it holds. *)
Definition count_lines (s : string) : nat := count_char newline s.

(** ** astrometry.c: [lostInSpace] *)

(** [M_PI] of math.h, the [double] nearest to pi. *)
Definition M_PI : double := S754_finite false 7074237752028440 (-51).

(** The macro [MIN] of astrometry.net. *)
Definition MIN (a b : Z) : Z := if a <? b then a else b.

(** What [lostInSpace] works on: the shared groups, the indexes the engine
    has loaded, the solver, and the files by name. *)
Record world `{AstrometryTypes} : Type := mkWorld {
  state : StateStore;
  engine_indexes : list index_t;      (* [engine->indexes] *)
  solver : solver_t;                  (* what [solver] points to *)
  files : string -> string }.

Arguments mkWorld {_} _ _ _ _.

(** [all_astro_params] written, the other groups as they are. *)
Definition with_astro (a : astrometry.t) (s : StateStore) : StateStore :=
  mkStore a (all_camera_params s) (all_blob_params s).

(** What a call finds around it.  [ra] and [dec] are declared at line 84
    without an initialiser and first read at line 138: [ra_at_entry] and
    [dec_at_entry] are the indeterminate values they hold there.  The two
    timestamps are those [clock_gettime] gives at lines 122 and 186.

    The data file: [datafile_opens] says whether the [fopen] of line 213
    gives a stream (its result is not tested).  [write_cut] says what has
    reached the file by the [fclose] of line 219: all of the text ([None]),
    or only its first [k] characters when [fprintf] or the flush fails
    ([Some k]); the value of [fprintf] is tested at line 214 only to print a
    message and the value of [fclose] is not tested.  [nan_minus k] is the
    sign of the value of the [k]-th floating-point conversion of the record
    if that value is a NaN. *)
Record call_env : Type := mkEnv {
  ra_at_entry : double;
  dec_at_entry : double;
  astrom_tp_beginning : timespec;
  astrom_tp_end : timespec;
  datafile_opens : bool;
  write_cut : option nat;
  nan_minus : nat -> bool }.

(** How a call ends: it returns, or its behaviour is undefined and the model
    follows it no further (on Linux the process dies of a segmentation
    fault). *)
Inductive outcome (A : Type) : Type :=
| Crashed
| Returned (a : A).

Arguments Crashed {A}.
Arguments Returned {A} a.

Section LostInSpace.
Context `{AstrometryNet} `{Sofa} `{LibM}.

Definition usable_width : Z := CAMERA_WIDTH - 2 * CAMERA_MARGIN.
Definition usable_height : Z := CAMERA_HEIGHT - 2 * CAMERA_MARGIN.

(** Line 116. *)
Definition hprange : double :=
  arcsec2dist (Ddiv (Dmul MAX_PS (hypot (D_of_Z usable_width) (D_of_Z usable_height)))
                    (D_of_Z 2)).

(** Lines 119-129: the star list, sorted by flux. *)
Definition make_field (star_x star_y star_mags : list double) (num_blobs : Z) : starxy_t :=
  let n := Z.to_nat num_blobs in
  starxy_sort_by_flux (mkStarxy (firstn n star_x) (firstn n star_y) (firstn n star_mags)).

(** Lines 138-142, for one index: the solver's index list after the [if]. *)
Definition add_if_close (ra dec : double) (added : list index_t) (index : index_t)
  : list index_t :=
  if c_ge ra (D_of_Z (-180)) && c_ge dec (D_of_Z (-90))
     && index_is_within_range index ra dec (dist2deg hprange)
  then added ++ [index]
  else if c_lt ra (D_of_Z (-180)) || c_lt dec (D_of_Z (-90))
  then added ++ [index]
  else added.

(** Lines 135-145: the loop over the engine's indexes.  ([index_reload]
    loads the data of an index and changes nothing that is kept here.) *)
Definition add_indexes (ra dec : double) (engine : list index_t) (added : list index_t)
  : list index_t :=
  fold_left (add_if_close ra dec) engine added.

(** Lines 95-145: the solver as [solver_run] finds it. *)
Definition configured_solver (star_x star_y star_mags : list double) (num_blobs : Z)
  (env : call_env) (w : world) : solver_t :=
  let s := solver w in
  {| funits_lower := MIN_PS;
     funits_upper := MAX_PS;
     endobj := int_of_unsigned num_blobs;
     quadsize_min := Dmul (Ddiv (D_of_Z 1) (D_of_Z 10)) (D_of_Z (MIN usable_width usable_height));
     parity := PARITY_BOTH;
     logratio_tokeep := log (astrometry.logodds (all_astro_params (state w)));
     logratio_totune := log (D_of_Z 1000000);
     logratio_toprint := log (D_of_Z 1000000);
     distance_from_quad_bonus := 1;
     fieldxy := Some (make_field star_x star_y star_mags num_blobs);
     field_minx := D_of_Z 0;
     field_maxx := D_of_Z usable_width;
     field_miny := D_of_Z 0;
     field_maxy := D_of_Z usable_height;
     indexes := add_indexes (ra_at_entry env) (dec_at_entry env) (engine_indexes w) (indexes s);
     best_match_solves := best_match_solves s;
     best_match_wcstan := best_match_wcstan s |}.

(** Lines 225-226: [solver_cleanup_field] and [solver_clear_indexes]. *)
Definition cleaned_up (s : solver_t) : solver_t :=
  {| funits_lower := funits_lower s;
     funits_upper := funits_upper s;
     endobj := endobj s;
     quadsize_min := quadsize_min s;
     parity := parity s;
     logratio_tokeep := logratio_tokeep s;
     logratio_totune := logratio_totune s;
     logratio_toprint := logratio_toprint s;
     distance_from_quad_bonus := distance_from_quad_bonus s;
     fieldxy := None;
     field_minx := field_minx s;
     field_maxx := field_maxx s;
     field_miny := field_miny s;
     field_maxy := field_maxy s;
     indexes := [];
     best_match_solves := false;
     best_match_wcstan := best_match_wcstan s |}.

(** Line 148: the solver after [solver_run]. *)
Definition ran (s : solver_t) : solver_t :=
  let (solves, wcstan) := solver_run s in
  {| funits_lower := funits_lower s;
     funits_upper := funits_upper s;
     endobj := endobj s;
     quadsize_min := quadsize_min s;
     parity := parity s;
     logratio_tokeep := logratio_tokeep s;
     logratio_totune := logratio_totune s;
     logratio_toprint := logratio_toprint s;
     distance_from_quad_bonus := distance_from_quad_bonus s;
     fieldxy := fieldxy s;
     field_minx := field_minx s;
     field_maxx := field_maxx s;
     field_miny := field_miny s;
     field_maxy := field_maxy s;
     indexes := indexes s;
     best_match_solves := solves;
     best_match_wcstan := wcstan |}.

Definition deg2rad : double := Ddiv M_PI (D_of_Z 180).
Definition rad2deg : double := Ddiv (D_of_Z 180) M_PI.

(** Lines 158-183: the frame centre on the sky, the reduction to observed
    place and the image rotation.  The result is the six outputs of
    [iauAtco13] with [fr], [ps] and [ir]. *)
Definition reduce (wcs : tan_t) (tm_info : tm) (w : world)
  : atco13 * (double * double * double) :=
  let '(ra, dec) :=
    tan_pixelxy2radec wcs (Ddiv (D_of_Z (usable_width - 1)) (D_of_Z 2))
                          (Ddiv (D_of_Z (usable_height - 1)) (D_of_Z 2)) in
  let ps := tan_pixel_scale wcs in
  let fr := tan_get_orientation wcs in
  let '(_, (d1, d2)) :=
    iauDtf2d "UTC" (tm_year tm_info + 1900) (tm_mon tm_info + 1) (tm_mday tm_info)
             (tm_hour tm_info) (tm_min tm_info) (D_of_Z (tm_sec tm_info)) in
  let a := all_astro_params (state w) in
  let zero := D_of_Z 0 in
  let '(_, ob) :=
    iauAtco13
      [ Dmul ra deg2rad; Dmul dec deg2rad;
        zero; zero; zero; zero;
        d1;
        Dadd d2 (Ddiv (camera_params.exposure_time (all_camera_params (state w)))
                      (Dmul (Dmul (D_of_Z 2000) (D_of_Z 3600)) (D_of_Z 24)));
        dut1;
        Dmul (astrometry.longitude a) deg2rad; Dmul (astrometry.latitude a) deg2rad;
        astrometry.hm a; zero; zero; zero; zero; zero; zero ] in
  let ir :=
    Dadd (Dmul (iauHd2pa (hob ob) (dob ob) (Dmul (astrometry.latitude a) deg2rad)) rad2deg)
         fr in
  (ob, (fr, ps, ir)).

(** Lines 191-197: the update of [all_astro_params]. *)
Definition update_astro (ob : atco13) (fr ps ir : double) (a : astrometry.t) : astrometry.t :=
  let a := astrometry.set_ir ir a in
  let a := astrometry.set_ra (Dmul (rob ob) rad2deg) a in
  let a := astrometry.set_dec (Dmul (dob ob) rad2deg) a in
  let a := astrometry.set_alt (Dsub (D_of_Z 90) (Dmul (zob ob) rad2deg)) a in
  let a := astrometry.set_az (Dmul (aob ob) rad2deg) a in
  let a := astrometry.set_fr fr a in
  let a := astrometry.set_ps ps a in
  a.

(** Lines 206-208: the time the solve took, in nanoseconds. *)
Definition astrom_time (env : call_env) : double :=
  let ns (t : timespec) :=
    Dadd (Dmul (D_of_Z (tv_sec t)) (D_of_Z 1000000000)) (D_of_Z (tv_nsec t)) in
  Dsub (ns (astrom_tp_end env)) (ns (astrom_tp_beginning env)).

(** Lines 214-216: the text [fprintf] writes for the format
    ["%i|%lf|%lf|%lf|%lf|%.15f|%.15f|%lf|%f"]. *)
Definition log_record (num_blobs : Z) (a : astrometry.t) (env : call_env) : string :=
  (printf_i (int_of_unsigned num_blobs) ++ "|" ++
   printf_double (nan_minus env 1) 6 (astrometry.ra a) ++ "|" ++
   printf_double (nan_minus env 2) 6 (astrometry.dec a) ++ "|" ++
   printf_double (nan_minus env 3) 6 (astrometry.fr a) ++ "|" ++
   printf_double (nan_minus env 4) 6 (astrometry.ps a) ++ "|" ++
   printf_double (nan_minus env 5) 15 (astrometry.alt a) ++ "|" ++
   printf_double (nan_minus env 6) 15 (astrometry.az a) ++ "|" ++
   printf_double (nan_minus env 7) 6 (astrometry.ir a) ++ "|" ++
   printf_double (nan_minus env 8) 6
     (Dmul (astrom_time env) (Ddiv (D_of_Z 1) (D_of_Z 1000000))))%string.

(** What has reached the file of a text given to [fprintf]. *)
Definition written (env : call_env) (text : string) : string :=
  match write_cut env with
  | None => text
  | Some k => substring 0 k text
  end.

(** A file system in which [text] has gone after what the file [name]
    held (a stream opened with mode ["a"]). *)
Definition append_to (name : string) (text : string) (fs : string -> string)
  : string -> string :=
  fun f => if String.eqb f name then (fs f ++ text)%string else fs f.

(** [lostInSpace]: the status it returns and the world it leaves.  On a match
    [all_astro_params] is written (lines 191-197) and the data file is then
    opened; when [fopen] gives no stream the null pointer goes to [fprintf]
    and the call does not return.  Otherwise what the write leaves of the
    record is at the end of the file, and the status is 1 whether or not the
    write went through. *)
Definition lostInSpace (star_x star_y star_mags : list double) (num_blobs : Z)
  (tm_info : tm) (datafile : string) (env : call_env) (w : world) : outcome (Z * world) :=
  let s := ran (configured_solver star_x star_y star_mags num_blobs env w) in
  if best_match_solves s then
    let '(ob, (fr, ps, ir)) := reduce (best_match_wcstan s) tm_info w in
    let a := update_astro ob fr ps ir (all_astro_params (state w)) in
    if datafile_opens env then
      let fs := append_to datafile (written env (log_record num_blobs a env)) (files w) in
      Returned (1, mkWorld (with_astro a (state w)) (engine_indexes w) (cleaned_up s) fs)
    else Crashed
  else
    Returned (0, mkWorld (state w) (engine_indexes w) (cleaned_up s) (files w)).

End LostInSpace.

(** ** commands.c: session threads side by side

    Every client has a thread running [processClient]; they share
    [command_lock].  A thread is followed through the places of the loop where
    it reads or writes the flag; one step is one such access, and the
    scheduler picks which thread takes the next step. *)

Module Gate.

(** Where a thread stands in the loop of [processClient]. *)
Inductive place : Type :=
| Receiving   (* line 138, in [recvfrom] *)
| Polling     (* line 143, about to read [command_lock] *)
| Sleeping    (* line 144, in [usleep] *)
| Locking     (* line 147, about to write [command_lock = 1] *)
| Merging     (* lines 148-217, the command merge *)
| Unlocking   (* line 220, about to write [command_lock = 0] *)
| Sending     (* lines 223-242 *)
| Gone.       (* line 245, after [close] *)

Record config : Type := mkConfig {
  command_lock : Z;
  threads : list place }.

(** What the peer does during a step: a command has come in, the peer still
    takes what is sent. *)
Record peer : Type := mkPeer {
  sent_command : bool;
  takes_data : bool }.

(** One step of a thread: the flag and the place after it. *)
Definition step_thread (io : peer) (lock : Z) (p : place) : Z * place :=
  match p with
  | Receiving => (lock, if sent_command io then Polling else Sending)
  | Polling => (lock, if negb (lock =? 0) then Sleeping else Locking)
  | Sleeping => (lock, Polling)
  | Locking => (1, Merging)
  | Merging => (lock, Unlocking)
  | Unlocking => (0, Sending)
  | Sending => (lock, if takes_data io then Receiving else Gone)
  | Gone => (lock, Gone)
  end.

Fixpoint set_nth (n : nat) (p : place) (l : list place) : list place :=
  match l, n with
  | [], _ => []
  | _ :: l', O => p :: l'
  | q :: l', S n' => q :: set_nth n' p l'
  end.

(** Thread [t] takes a step. *)
Definition step (c : config) (t : nat) (io : peer) : config :=
  match nth_error (threads c) t with
  | None => c
  | Some p =>
      let (lock, p') := step_thread io (command_lock c) p in
      mkConfig lock (set_nth t p' (threads c))
  end.

(** A schedule: which thread steps, and what its peer does meanwhile. *)
Fixpoint run (c : config) (schedule : list (nat * peer)) : config :=
  match schedule with
  | [] => c
  | (t, io) :: rest => run (step c t io) rest
  end.

(** The threads inside the command merge. *)
Definition merging (c : config) : nat :=
  List.length (filter (fun p => match p with Merging => true | _ => false end) (threads c)).

(** Server start: the flag is clear ([int command_lock = 0]); two clients
    have connected. *)
Definition two_sessions : config := mkConfig 0 [Receiving; Receiving].

End Gate.

(** A thread between its write of 1 to the flag and its write of 0. *)
Definition holds_flag (p : Gate.place) : bool :=
  match p with
  | Gate.Merging | Gate.Unlocking => true
  | _ => false
  end.

(** [n] sessions at server start. *)
Definition sessions_at_start (n : nat) : Gate.config :=
  Gate.mkConfig 0 (repeat Gate.Receiving n).

(** ** astrometry.c: the index test and runs of solves *)

Section Selection.
Context `{AstrometryNet} `{Sofa} `{LibM}.

(** The two conditions of lines 138-142 as one: the index is added when
    either holds. *)
Definition selects (ra dec : double) (index : index_t) : bool :=
  (c_ge ra (D_of_Z (-180)) && c_ge dec (D_of_Z (-90))
   && index_is_within_range index ra dec (dist2deg hprange))
  || (c_lt ra (D_of_Z (-180)) || c_lt dec (D_of_Z (-90))).

(** The arguments of one call of [lostInSpace], and what it finds around it. *)
Record solve_call : Type := mkCall {
  call_x : list double;
  call_y : list double;
  call_mags : list double;
  call_blobs : Z;
  call_tm : tm;
  call_around : call_env }.

(** Calls of [lostInSpace] one after the other on the same data file, as the
    solve thread makes them: the statuses, and the world after the last; the
    run stops at a call that does not return. *)
Fixpoint solve_all (calls : list solve_call) (datafile : string) (w : world)
  : outcome (list Z * world) :=
  match calls with
  | [] => Returned ([], w)
  | c :: rest =>
      match lostInSpace (call_x c) (call_y c) (call_mags c) (call_blobs c) (call_tm c)
                        datafile (call_around c) w with
      | Crashed => Crashed
      | Returned (st, w1) =>
          match solve_all rest datafile w1 with
          | Crashed => Crashed
          | Returned (sts, w2) => Returned (st :: sts, w2)
          end
      end
  end.

End Selection.

(** ** commands.c: [main] *)

(** What the calls of the start-up return, each as it would if reached. *)
Record startup : Type := mkStartup {
  socket_ret : Z;
  bind_ret : Z;
  listen_ret : Z;
  setsockopt_ret : Z;
  initCamera_ret : Z;
  initLensAdapter_ret : Z;
  pthread_create_ret : Z }.

(** How the process ends: [exit (status)], or [return] from [main]. *)
Inductive ending : Type :=
| Exit (status : Z)
| Return (value : Z).

Definition EXIT_FAILURE : Z := 1.

(** Lines 299-300: [tv_sec] is an integer; the 2.5 assigned to it is
    truncated. *)
Definition read_timeout : option Z * Z := (trunc (Ddiv (D_of_Z 5) (D_of_Z 2)), 0).

(** Lines 272-321.  [None]: the start-up is through and the accept loop
    begins. *)
Definition start (r : startup) : option ending :=
  if socket_ret r <? 0 then Some (Exit EXIT_FAILURE)
  else if bind_ret r <? 0 then Some (Exit EXIT_FAILURE)
  else if listen_ret r <? 0 then Some (Exit EXIT_FAILURE)
  else if setsockopt_ret r <? 0 then Some (Exit EXIT_FAILURE)
  else if initCamera_ret r <? 0 then Some (Return (-1))
  else if initLensAdapter_ret r <? 0 then Some (Exit EXIT_FAILURE)
  else if negb (pthread_create_ret r =? 0) then Some (Exit EXIT_FAILURE)
  else None.

(** One turn of the loop of lines 324-344: what [accept] returns and, when a
    thread is asked for, what [pthread_create] returns. *)
Record turn : Type := mkTurn {
  accept_ret : Z;
  thread_ret : Z }.

(** What the accept loop has done over its turns. *)
Record served : Type := mkServed {
  started : list Z;          (* the sockets whose session thread was created *)
  reported : list Z;         (* the sockets for which line 341 reported a failure *)
  ended : option ending }.   (* [Some]: the loop is left and [main] returns *)

(** Lines 324-346. *)
Fixpoint accept_loop (turns : list turn) : served :=
  match turns with
  | [] => mkServed [] [] None
  | t :: rest =>
      if accept_ret t =? 0 then mkServed [] [] (Some (Return 1))
      else if accept_ret t =? -1 then accept_loop rest
      else
        let later := accept_loop rest in
        mkServed (if thread_ret t =? 0 then accept_ret t :: started later else started later)
                 (if thread_ret t <? 0 then accept_ret t :: reported later else reported later)
                 (ended later)
  end.

(** [main]: the start-up, then the accept loop. *)
Definition main (r : startup) (turns : list turn) : served :=
  match start r with
  | Some e => mkServed [] [] (Some e)
  | None => accept_loop turns
  end.

(** ** Stand-ins for the external libraries

    Small instances of the interfaces, to run the model on concrete inputs.
    No statement below depends on them except the examples that name them. *)

Module Standin.

(** A lens adapter that applies an exposure change and clears the request. *)
Definition lens : LensAdapter :=
  {| adjustCameraHardware := camera_params.set_change_exposure_bool 0 |}.

(** An index is the centre of its footprint; a WCS is the sky position of the
    frame centre. *)
Definition types : AstrometryTypes :=
  {| index_t := double * double; tan_t := double * double |}.

Definition near (a b r : double) : bool := SFleb (SFabs (Dsub a b)) r.

(** The solver matches when it has at least three stars and an index, at the
    centre of the first index. *)
Definition search (s : @solver_t types) : bool * (double * double) :=
  match fieldxy s, indexes s with
  | Some f, i :: _ => (3 <=? Z.of_nat (List.length (starxy_x f)), i)
  | _, _ => (false, best_match_wcstan s)
  end.

Definition net : @AstrometryNet types :=
  {| index_is_within_range := fun (i : @index_t types) ra dec r =>
       near (fst i) ra r && near (snd i) dec r;
     arcsec2dist := fun x => Ddiv x (D_of_Z 206265);
     dist2deg := fun x => Dmul x (D_of_Z 57);
     starxy_sort_by_flux := fun f => f;
     solver_run := search;
     tan_pixelxy2radec := fun (w : @tan_t types) _ _ => w;
     tan_pixel_scale := fun _ => MIN_PS;
     tan_get_orientation := fun _ => D_of_Z 0 |}.

(** A reduction that moves the position by one radian in right ascension and
    puts it half a radian from the zenith. *)
Definition sofa : Sofa :=
  {| iauDtf2d := fun _ _ _ _ _ _ _ => (0, (D_of_Z 2459000, D_of_Z 0));
     iauAtco13 := fun args =>
       let rc := nth 0 args (D_of_Z 0) in
       let dc := nth 1 args (D_of_Z 0) in
       (0, mkAtco13 (D_of_Z 1) (Ddiv (D_of_Z 1) (D_of_Z 2)) (D_of_Z 0) dc
                    (Dadd rc (D_of_Z 1)) (D_of_Z 0));
     iauHd2pa := fun _ _ _ => D_of_Z 0 |}.

Definition libm : LibM :=
  {| log := fun x => x;
     hypot := fun x y => SFsqrt 53 1024 (Dadd (Dmul x x) (Dmul y y)) |}.

Definition zero : double := D_of_Z 0.

Definition no_wcs : double * double := (zero, zero).

Definition idle_solver : @solver_t types :=
  @mkSolver types zero zero 0 zero PARITY_BOTH zero zero zero 0 None zero zero zero zero [] false no_wcs.

(** [all_astro_params] as astrometry.c initialises it. *)
Definition astro0 : astrometry.t :=
  astrometry.mk zero (D_of_Z 100000000)
    (Ddiv (D_of_Z 4079166879) (D_of_Z 100000000))
    (Ddiv (D_of_Z (-7368133399)) (D_of_Z 100000000))
    (Ddiv (D_of_Z 5924) (D_of_Z 100))
    zero zero zero zero zero zero zero.

Definition camera0 : camera_params.t :=
  camera_params.mk (D_of_Z 800) 0 0 0 0 0 0 (F_of_Z 0) 0 0.

Definition blob0 : blob_params.t :=
  blob_params.mk 3 1 2 0 10 1 0 (F_of_Z 2) 15 0 1.

Definition store0 : StateStore := mkStore astro0 camera0 blob0.

(** Two partitions: one around the origin, one around (100, 45). *)
Definition index_origin : double * double := (zero, zero).
Definition index_far : double * double := (D_of_Z 100, D_of_Z 45).

Definition datafile : string := "data.txt".

Definition world0 : @world types :=
  @mkWorld types store0 [index_origin; index_far] idle_solver (fun _ => EmptyString).

Definition noon : tm := mkTm 121 5 21 12 0 0.

(** Three stars. *)
Definition stars : list double := [D_of_Z 10; D_of_Z 20; D_of_Z 30].

(** The locals [ra], [dec] holding -1000 and 0, then 100 and 45, at entry. *)
Definition env_low : call_env :=
  mkEnv (D_of_Z (-1000)) zero (mkTimespec 100 0) (mkTimespec 100 250000000)
        true None (fun _ => false).
Definition env_far : call_env :=
  mkEnv (D_of_Z 100) (D_of_Z 45) (mkTimespec 100 0) (mkTimespec 100 250000000)
        true None (fun _ => false).

(** A command that asks for a spike limit of 2.5 and keeps everything else
    that has a sentinel. *)
Definition two_and_a_half : float := SFdiv 24 128 (F_of_Z 5) (F_of_Z 2).

Definition cmd_spike : commands.t :=
  commands.mk (D_of_Z 100000000) zero zero zero (D_of_Z 800) (F_of_Z (-1)) 0 0 0 0 0 0 0 0 0
    [two_and_a_half; F_of_Z 1; F_of_Z (-1); F_of_Z 0; F_of_Z (-1); F_of_Z (-1); F_of_Z 0;
     F_of_Z (-1); F_of_Z (-1)].

Definition globals0 : globals :=
  mkGlobals store0 cmd_spike (snapshot store0) 0.

(** A cycle in which nothing arrives and both sends go through. *)
Definition quiet_cycle : cycle_io :=
  mkIO (-1) cmd_spike (sizeof struct_telemetry) (CAMERA_WIDTH * CAMERA_HEIGHT)
       (fun _ => Byte.x2a).

End Standin.

(** Further inputs for the examples. *)
Module Sample.

(** A command that sets every guarded field. *)
Definition cmd_full : commands.t :=
  commands.mk (D_of_Z 1000) (D_of_Z 40) (D_of_Z (-73)) (D_of_Z 60) (D_of_Z 900) (F_of_Z 120)
    0 0 0 0 0 0 0 0 0
    [F_of_Z 4; F_of_Z 1; F_of_Z 3; F_of_Z 0; F_of_Z 11; F_of_Z 2; F_of_Z 0; F_of_Z 5; F_of_Z 16].

(** A command with a NaN exposure. *)
Definition cmd_nan : commands.t :=
  commands.mk (D_of_Z 1000) (D_of_Z 40) (D_of_Z (-73)) (D_of_Z 60) S754_nan (F_of_Z (-1))
    0 0 0 0 0 0 0 0 0
    [F_of_Z 4; F_of_Z 1; F_of_Z 3; F_of_Z 0; F_of_Z 11; F_of_Z 2; F_of_Z 0; F_of_Z 5; F_of_Z 16].

(** A cycle in which a command arrives in full and both sends go through. *)
Definition command_cycle : cycle_io :=
  mkIO 116 cmd_full (sizeof struct_telemetry) (CAMERA_WIDTH * CAMERA_HEIGHT)
       (fun _ => Byte.x2a).

(** A cycle in which [recvfrom] returns 0, the peer having shut down, and the
    first send fails. *)
Definition hangup_cycle : cycle_io :=
  mkIO 0 Standin.cmd_spike (-1) (-1) (fun _ => Byte.x2a).

(** A cycle in which nothing arrives and the first send is cut after 100
    bytes. *)
Definition short_cycle : cycle_io :=
  mkIO (-1) Standin.cmd_spike 100 (CAMERA_WIDTH * CAMERA_HEIGHT) (fun _ => Byte.x2a).

(** The locals [ra], [dec] holding 0 and 0, and NaN and 0, at entry. *)
Definition env_origin : call_env :=
  mkEnv Standin.zero Standin.zero (mkTimespec 100 0) (mkTimespec 100 250000000)
        true None (fun _ => false).
Definition env_nan : call_env :=
  mkEnv S754_nan Standin.zero (mkTimespec 100 0) (mkTimespec 100 250000000)
        true None (fun _ => false).

(** A solve of three stars, and one without stars. *)
Definition call_stars : solve_call :=
  mkCall Standin.stars Standin.stars Standin.stars 3 Standin.noon Standin.env_low.
Definition call_empty : solve_call :=
  mkCall [] [] [] 0 Standin.noon Standin.env_low.

(** The data file cannot be opened; the write stops after 10 characters. *)
Definition env_unopenable : call_env :=
  mkEnv (D_of_Z (-1000)) Standin.zero (mkTimespec 100 0) (mkTimespec 100 250000000)
        false None (fun _ => false).
Definition env_cut : call_env :=
  mkEnv (D_of_Z (-1000)) Standin.zero (mkTimespec 100 0) (mkTimespec 100 250000000)
        true (Some 10%nat) (fun _ => false).

(** The globals with a telemetry record left from an earlier state. *)
Definition stale_data : telemetry.t :=
  telemetry.mk Standin.astro0 Standin.camera0
    (blob_params.mk 0 0 0 0 0 0 0 (F_of_Z 0) 0 0 0).
Definition globals_stale : globals :=
  mkGlobals Standin.store0 Standin.cmd_spike stale_data 0.

(** A cycle in which nothing arrives and the peer is gone. *)
Definition gone_cycle : cycle_io :=
  mkIO (-1) Standin.cmd_spike (-1) (-1) (fun _ => Byte.x2a).

(** A start-up in which every call succeeds. *)
Definition good_start : startup := mkStartup 3 0 0 0 1 1 0.

(** Two time-outs of [accept], a client on socket 5, a client on socket 6
    whose thread cannot be created (EAGAIN, 11). *)
Definition turns : list turn :=
  [mkTurn (-1) 0; mkTurn (-1) 0; mkTurn 5 0; mkTurn 6 11].

End Sample.

(** * Properties *)

(** ** Floating-point guards *)

(** The guard [x >= 0] fails for the negative numbers and for NaN only. *)
Lemma c_ge_zero_false (x : float) :
  c_ge x (F_of_Z 0) = false <-> x = S754_nan \/ c_lt x (F_of_Z 0) = true.
Proof.
  unfold c_ge, c_lt, SFleb, SFltb.
  destruct x as [s | s | | s m e]; try destruct s; cbn;
    intuition (discriminate || auto).
Qed.

(** A negative value is a sentinel of the guard [x >= 0]. *)
Lemma negative_not_ge_zero (x : float) :
  c_lt x (F_of_Z 0) = true -> c_ge x (F_of_Z 0) = false.
Proof. intro Hlt. apply c_ge_zero_false. now right. Qed.

(** ** The command merge *)

Section Merge.
Context `{LensAdapter}.

(** The three groups after a command: the camera group goes through the
    lens adapter, the other two are written by the merge alone. *)
Lemma applyCommand_groups (c : commands.t) (s : StateStore) :
  applyCommand c s =
  mkStore (merge_astro c (all_astro_params s))
          (adjustCameraHardware (merge_camera c (all_camera_params s)))
          (merge_blob c (all_blob_params s)).
Proof. reflexivity. Qed.

(** Lines 157-179, field by field. *)
Lemma merge_camera_fields (c : commands.t) (p : camera_params.t) :
  let p' := merge_camera c p in
  camera_params.focus_position p' =
    (if c_ne (commands.focus_pos c) (F_of_Z (-1)) then commands.focus_pos c
     else camera_params.focus_position p) /\
  camera_params.focus_mode p' = commands.focus_mode c /\
  camera_params.start_focus_pos p' = commands.start_focus_pos c /\
  camera_params.end_focus_pos p' = commands.end_focus_pos c /\
  camera_params.focus_step p' = commands.focus_step c /\
  camera_params.focus_inf p' = commands.set_focus_inf c /\
  camera_params.max_aperture p' = commands.set_max_aperture c /\
  camera_params.aperture_steps p' = commands.aperture_steps c.
Proof.
  unfold merge_camera.
  destruct (exposure_differs c p);
    destruct (c_ne (commands.focus_pos c) (F_of_Z (-1)));
    repeat split; reflexivity.
Qed.

(** Lines 186-217, field by field. *)
Lemma merge_blob_fields (c : commands.t) (b : blob_params.t) :
  let bp := commands.blob_params c in
  let b' := merge_blob c b in
  blob_params.spike_limit b' =
    (if c_ge (idx bp 0) (F_of_Z 0) then int_of_float (idx bp 0) else blob_params.spike_limit b) /\
  blob_params.r_smooth b' =
    (if c_ge (idx bp 2) (F_of_Z 0) then int_of_float (idx bp 2) else blob_params.r_smooth b) /\
  blob_params.r_high_pass_filter b' =
    (if c_ge (idx bp 4) (F_of_Z 0) then int_of_float (idx bp 4)
     else blob_params.r_high_pass_filter b) /\
  blob_params.centroid_search_border b' =
    (if c_ge (idx bp 5) (F_of_Z 0) then int_of_float (idx bp 5)
     else blob_params.centroid_search_border b) /\
  blob_params.n_sigma b' =
    (if c_ge (idx bp 7) (F_of_Z 0) then idx bp 7 else blob_params.n_sigma b) /\
  blob_params.unique_star_spacing b' =
    (if c_ge (idx bp 8) (F_of_Z 0) then int_of_float (idx bp 8)
     else blob_params.unique_star_spacing b) /\
  blob_params.make_static_hp_mask b' = commands.make_hp c /\
  blob_params.use_static_hp_mask b' = commands.use_hp c /\
  blob_params.dynamic_hot_pixels b' = int_of_float (idx bp 1) /\
  blob_params.high_pass_filter b' = int_of_float (idx bp 3) /\
  blob_params.filter_return_image b' = int_of_float (idx bp 6).
Proof.
  unfold merge_blob.
  destruct (c_ge (idx (commands.blob_params c) 0) (F_of_Z 0));
  destruct (c_ge (idx (commands.blob_params c) 2) (F_of_Z 0));
  destruct (c_ge (idx (commands.blob_params c) 4) (F_of_Z 0));
  destruct (c_ge (idx (commands.blob_params c) 5) (F_of_Z 0));
  destruct (c_ge (idx (commands.blob_params c) 7) (F_of_Z 0));
  destruct (c_ge (idx (commands.blob_params c) 8) (F_of_Z 0));
  repeat split; reflexivity.
Qed.

(** C1, as amended: the merge of a command, field by field.  A guarded blob
    field takes the commanded value, converted to the type of the field, when
    the value compares [>= 0], and keeps its value otherwise; the focus
    position handed to the lens adapter takes the commanded value unless that
    is -1; every other field is overwritten (the blob flags with the
    commanded [float] converted to [int]). *)
Theorem applyCommand_sentinel_table (c : commands.t) (s : StateStore) :
  let bp := commands.blob_params c in
  let guarded (T : Type) (v : float) (new old : T) : T :=
    if c_ge v (F_of_Z 0) then new else old in
  let s' := applyCommand c s in
  let cam := merge_camera c (all_camera_params s) in
  let old := all_blob_params s in
  let new := all_blob_params s' in
  all_camera_params s' = adjustCameraHardware cam /\
  camera_params.focus_position cam =
    (if c_ne (commands.focus_pos c) (F_of_Z (-1)) then commands.focus_pos c
     else camera_params.focus_position (all_camera_params s)) /\
  blob_params.spike_limit new =
    guarded Z (idx bp 0) (int_of_float (idx bp 0)) (blob_params.spike_limit old) /\
  blob_params.r_smooth new =
    guarded Z (idx bp 2) (int_of_float (idx bp 2)) (blob_params.r_smooth old) /\
  blob_params.r_high_pass_filter new =
    guarded Z (idx bp 4) (int_of_float (idx bp 4)) (blob_params.r_high_pass_filter old) /\
  blob_params.centroid_search_border new =
    guarded Z (idx bp 5) (int_of_float (idx bp 5)) (blob_params.centroid_search_border old) /\
  blob_params.n_sigma new = guarded float (idx bp 7) (idx bp 7) (blob_params.n_sigma old) /\
  blob_params.unique_star_spacing new =
    guarded Z (idx bp 8) (int_of_float (idx bp 8)) (blob_params.unique_star_spacing old) /\
  astrometry.logodds (all_astro_params s') = commands.logodds c /\
  astrometry.latitude (all_astro_params s') = commands.latitude c /\
  astrometry.longitude (all_astro_params s') = commands.longitude c /\
  astrometry.hm (all_astro_params s') = commands.height c /\
  camera_params.focus_mode cam = commands.focus_mode c /\
  camera_params.start_focus_pos cam = commands.start_focus_pos c /\
  camera_params.end_focus_pos cam = commands.end_focus_pos c /\
  camera_params.focus_step cam = commands.focus_step c /\
  camera_params.focus_inf cam = commands.set_focus_inf c /\
  camera_params.max_aperture cam = commands.set_max_aperture c /\
  camera_params.aperture_steps cam = commands.aperture_steps c /\
  blob_params.make_static_hp_mask new = commands.make_hp c /\
  blob_params.use_static_hp_mask new = commands.use_hp c /\
  blob_params.dynamic_hot_pixels new = int_of_float (idx bp 1) /\
  blob_params.high_pass_filter new = int_of_float (idx bp 3) /\
  blob_params.filter_return_image new = int_of_float (idx bp 6).
Proof.
  cbv zeta. rewrite applyCommand_groups.
  cbn [all_camera_params all_blob_params all_astro_params].
  split; [reflexivity|].
  assert (Hcam := merge_camera_fields c (all_camera_params s)).
  assert (Hblob := merge_blob_fields c (all_blob_params s)).
  cbv zeta in Hcam, Hblob.
  repeat match goal with
         | Hc : _ /\ _ |- _ => destruct Hc
         end.
  repeat split; assumption || reflexivity.
Qed.

(** C5: the merge writes the exposure time and raises the change flag exactly
    when the commanded exposure and the current one differ after [ceil];
    otherwise it leaves both as they are.  The record is then handed to the
    lens adapter. *)
Theorem merge_camera_exposure (c : commands.t) (s : StateStore) :
  let p := all_camera_params s in
  let p' := merge_camera c p in
  exposure_differs c p = c_ne (ceil (commands.exposure c)) (ceil (camera_params.exposure_time p)) /\
  camera_params.exposure_time p' =
    (if exposure_differs c p then commands.exposure c else camera_params.exposure_time p) /\
  camera_params.change_exposure_bool p' =
    (if exposure_differs c p then 1 else camera_params.change_exposure_bool p) /\
  all_camera_params (applyCommand c s) = adjustCameraHardware p'.
Proof.
  cbv zeta. split; [reflexivity|].
  rewrite applyCommand_groups. unfold merge_camera.
  destruct (exposure_differs c (all_camera_params s));
    destruct (c_ne (commands.focus_pos c) (F_of_Z (-1)));
    repeat split; reflexivity.
Qed.

End Merge.

(** C1, counterexample: a commanded spike limit of 2.5 passes the guard, and
    the field then holds 2, which is not the commanded value. *)
Lemma spike_limit_takes_integer_part :
  let v := idx (commands.blob_params Standin.cmd_spike) 0 in
  let s' := @applyCommand Standin.lens Standin.cmd_spike Standin.store0 in
  v = Standin.two_and_a_half /\
  c_ge v (F_of_Z 0) = true /\
  blob_params.spike_limit (all_blob_params s') = 2 /\
  c_ne (F_of_Z (blob_params.spike_limit (all_blob_params s'))) v = true.
Proof. vm_compute. auto. Qed.

(** Rounding with [ceil]: 800.2 ms against a current 800.9 ms is no change,
    800.5 ms against a current 800 ms is one. *)
Example exposure_same_after_ceil :
  c_ne (ceil (Ddiv (D_of_Z 8002) (D_of_Z 10))) (ceil (Ddiv (D_of_Z 8009) (D_of_Z 10))) = false.
Proof. reflexivity. Qed.

Example exposure_differs_after_ceil :
  c_ne (ceil (Ddiv (D_of_Z 8005) (D_of_Z 10))) (ceil (D_of_Z 800)) = true.
Proof. reflexivity. Qed.

(** ** The telemetry packet and the session cycle *)

Lemma le_bytes_length (n : nat) (z : Z) : List.length (le_bytes n z) = n.
Proof.
  revert z. induction n as [|n IH]; intro z; cbn [le_bytes List.length].
  - reflexivity.
  - now rewrite IH.
Qed.

Lemma bytes_of_astrometry_length (a : astrometry.t) :
  Z.of_nat (List.length (bytes_of_astrometry a)) = sizeof struct_astrometry.
Proof.
  unfold bytes_of_astrometry, bytes_of_double.
  repeat rewrite List.length_app. repeat rewrite le_bytes_length. reflexivity.
Qed.

Lemma bytes_of_camera_params_length (p : camera_params.t) :
  Z.of_nat (List.length (bytes_of_camera_params p)) = sizeof struct_camera_params.
Proof.
  unfold bytes_of_camera_params, bytes_of_double, bytes_of_float, bytes_of_int.
  repeat rewrite List.length_app. repeat rewrite le_bytes_length. reflexivity.
Qed.

Lemma bytes_of_blob_params_length (b : blob_params.t) :
  Z.of_nat (List.length (bytes_of_blob_params b)) = sizeof struct_blob_params.
Proof.
  unfold bytes_of_blob_params, bytes_of_float, bytes_of_int.
  repeat rewrite List.length_app. repeat rewrite le_bytes_length. reflexivity.
Qed.

(** Under [pack(1)] the size of [struct telemetry] is the sum of the sizes of
    its members. *)
Lemma sizeof_struct_telemetry :
  sizeof struct_telemetry =
  sizeof struct_astrometry + sizeof struct_camera_params + sizeof struct_blob_params.
Proof. reflexivity. Qed.

(** Packing matters: with the natural alignment of its [double] the camera
    group would take 48 bytes, not 44, and the telemetry record 192. *)
Example sizeof_unpacked :
  sizeof (Tstruct 8 [Tdouble; Tint; Tint; Tint; Tint; Tint; Tint; Tfloat; Tint; Tint]) = 48 /\
  sizeof struct_camera_params = 44 /\
  sizeof (Tstruct 8 [struct_astrometry;
                     Tstruct 8 [Tdouble; Tint; Tint; Tint; Tint; Tint; Tint; Tfloat; Tint; Tint];
                     struct_blob_params]) = 192 /\
  sizeof struct_telemetry = 184.
Proof. repeat split. Qed.

(** The packet has [sizeof (struct telemetry)] bytes whatever the fields hold. *)
Lemma bytes_of_telemetry_length (t : telemetry.t) :
  Z.of_nat (List.length (bytes_of_telemetry t)) = sizeof struct_telemetry.
Proof.
  unfold bytes_of_telemetry. repeat rewrite List.length_app.
  repeat rewrite Nat2Z.inj_add.
  rewrite bytes_of_astrometry_length, bytes_of_camera_params_length,
    bytes_of_blob_params_length.
  reflexivity.
Qed.

Lemma read_bytes_length (mem : nat -> Byte.byte) (len : Z) :
  List.length (read_bytes mem len) = Z.to_nat len.
Proof. unfold read_bytes. now rewrite List.length_map, List.length_seq. Qed.

(** A [send] that returns the length of the buffer has put all of it on the
    wire. *)
Lemma sent_all (buf : list Byte.byte) (ret : Z) :
  ret = Z.of_nat (List.length buf) -> sent buf ret = buf.
Proof.
  intros ->. unfold sent. rewrite Nat2Z.id. apply List.firstn_all.
Qed.

Lemma object_bytes_telemetry (t : telemetry.t) :
  object_bytes (bytes_of_telemetry t) (sizeof struct_telemetry) = bytes_of_telemetry t.
Proof.
  unfold object_bytes. rewrite <- (bytes_of_telemetry_length t), Nat2Z.id.
  apply List.firstn_all.
Qed.

Lemma frame_size_positive : 0 < CAMERA_WIDTH * CAMERA_HEIGHT.
Proof. reflexivity. Qed.

(** The second half of a cycle when both sends go through in full. *)
Lemma transmit_complete (io : cycle_io) (g : globals) :
  send_telemetry_status io = sizeof struct_telemetry ->
  send_image_status io = CAMERA_WIDTH * CAMERA_HEIGHT ->
  transmit io g =
  (mkGlobals (store g) (all_cmds g) (snapshot (store g)) (command_lock g),
   bytes_of_telemetry (snapshot (store g)) ++
   read_bytes (camera_raw io) (CAMERA_WIDTH * CAMERA_HEIGHT),
   Open).
Proof.
  intros H1 H2. unfold transmit. cbn [all_data store all_cmds command_lock].
  rewrite H1, H2.
  replace (sizeof struct_telemetry <=? 0) with false by reflexivity.
  replace (CAMERA_WIDTH * CAMERA_HEIGHT <=? 0) with false by reflexivity.
  rewrite object_bytes_telemetry.
  rewrite sent_all by (symmetry; apply bytes_of_telemetry_length).
  rewrite sent_all; [reflexivity|].
  rewrite read_bytes_length, Z2Nat.id; [reflexivity|].
  apply Z.lt_le_incl, frame_size_positive.
Qed.

(** The session goes on exactly when both sends return a positive count, and
    the snapshot is taken in any case. *)
Lemma transmit_session (io : cycle_io) (g : globals) :
  fst (fst (transmit io g)) =
    mkGlobals (store g) (all_cmds g) (snapshot (store g)) (command_lock g) /\
  snd (transmit io g) =
    (if (0 <? send_telemetry_status io) && (0 <? send_image_status io) then Open else Closed).
Proof.
  unfold transmit.
  destruct (Z.leb_spec (send_telemetry_status io) 0) as [L1|L1];
    destruct (Z.leb_spec (send_image_status io) 0) as [L2|L2];
    destruct (Z.ltb_spec 0 (send_telemetry_status io));
    destruct (Z.ltb_spec 0 (send_image_status io));
    try lia; split; reflexivity.
Qed.

(** What the three [memcpy] of lines 223-225 leave in [all_data]: the three
    groups as they are, member by member. *)
Lemma snapshot_members (s : StateStore) :
  telemetry.astrom (snapshot s) = all_astro_params s /\
  telemetry.cam_settings (snapshot s) = all_camera_params s /\
  telemetry.current_blob_params (snapshot s) = all_blob_params s.
Proof. repeat split. Qed.

(** The packet is the bytes of the three groups, one after the other. *)
Lemma snapshot_bytes (s : StateStore) :
  bytes_of_telemetry (snapshot s) =
  bytes_of_astrometry (all_astro_params s) ++
  bytes_of_camera_params (all_camera_params s) ++
  bytes_of_blob_params (all_blob_params s).
Proof. reflexivity. Qed.

(** Lines 223-242 in full: what [all_data] holds afterwards, what each of the
    two sends has put on the wire, and whether the loop goes on. *)
Lemma transmit_wire (io : cycle_io) (g : globals) :
  let packet := bytes_of_astrometry (all_astro_params (store g)) ++
                bytes_of_camera_params (all_camera_params (store g)) ++
                bytes_of_blob_params (all_blob_params (store g)) in
  let frame := read_bytes (camera_raw io) (CAMERA_WIDTH * CAMERA_HEIGHT) in
  transmit io g =
  (mkGlobals (store g) (all_cmds g)
     (telemetry.mk (all_astro_params (store g)) (all_camera_params (store g))
                   (all_blob_params (store g)))
     (command_lock g),
   if send_telemetry_status io <=? 0 then []
   else sent packet (send_telemetry_status io) ++
        (if send_image_status io <=? 0 then [] else sent frame (send_image_status io)),
   if (0 <? send_telemetry_status io) && (0 <? send_image_status io) then Open else Closed).
Proof.
  cbv zeta. unfold transmit. cbn [all_data].
  rewrite object_bytes_telemetry, snapshot_bytes.
  destruct (Z.leb_spec (send_telemetry_status io) 0) as [L1|L1];
    destruct (Z.leb_spec (send_image_status io) 0) as [L2|L2];
    destruct (Z.ltb_spec 0 (send_telemetry_status io));
    destruct (Z.ltb_spec 0 (send_image_status io));
    try lia; cbn [andb]; rewrite ?List.app_nil_r; reflexivity.
Qed.

(** What full sends put on the wire. *)
Lemma sent_in_full (packet frame : list Byte.byte) (s1 s2 : Z) :
  Z.of_nat (List.length packet) = sizeof struct_telemetry ->
  Z.of_nat (List.length frame) = CAMERA_WIDTH * CAMERA_HEIGHT ->
  s1 = sizeof struct_telemetry ->
  s2 = CAMERA_WIDTH * CAMERA_HEIGHT ->
  (if s1 <=? 0 then []
   else sent packet s1 ++ (if s2 <=? 0 then [] else sent frame s2)) =
  packet ++ frame.
Proof.
  intros Hp Hf -> ->.
  replace (sizeof struct_telemetry <=? 0) with false by reflexivity.
  replace (CAMERA_WIDTH * CAMERA_HEIGHT <=? 0) with false by reflexivity.
  rewrite (sent_all packet) by (now symmetry).
  rewrite (sent_all frame) by (now symmetry).
  reflexivity.
Qed.

(** A [send] that returns a count within the buffer has put that many bytes
    on the wire. *)
Lemma sent_length (buf : list Byte.byte) (ret : Z) :
  0 <= ret <= Z.of_nat (List.length buf) -> Z.of_nat (List.length (sent buf ret)) = ret.
Proof. intro Hr. unfold sent. rewrite List.length_firstn. lia. Qed.

Lemma frame_length (mem : nat -> Byte.byte) :
  Z.of_nat (List.length (read_bytes mem (CAMERA_WIDTH * CAMERA_HEIGHT))) =
  CAMERA_WIDTH * CAMERA_HEIGHT.
Proof.
  rewrite read_bytes_length, Z2Nat.id; [reflexivity|].
  apply Z.lt_le_incl, frame_size_positive.
Qed.

Lemma cycle_result_inv (g g' : globals) (wire wire' : list Byte.byte) (st st' : session) :
  Some (g, wire, st) = Some (g', wire', st') -> g = g' /\ wire = wire' /\ st = st'.
Proof. intro E. injection E as -> -> ->. repeat split. Qed.

(** The packet of any three groups has the size of [struct telemetry]. *)
Lemma packet_length (a : astrometry.t) (p : camera_params.t) (b : blob_params.t) :
  Z.of_nat (List.length (bytes_of_astrometry a ++ bytes_of_camera_params p ++
                         bytes_of_blob_params b)) = sizeof struct_telemetry.
Proof. exact (bytes_of_telemetry_length (telemetry.mk a p b)). Qed.

Lemma skipn_length_app {A : Type} (l1 l2 : list A) (n : nat) :
  List.length l1 = n -> skipn n (l1 ++ l2) = l2.
Proof.
  intros <-. rewrite List.skipn_app, List.skipn_all, Nat.sub_diag. reflexivity.
Qed.

Lemma firstn_length_app {A : Type} (l1 l2 : list A) (n : nat) :
  List.length l1 = n -> firstn n (l1 ++ l2) = l1.
Proof.
  intros <-. rewrite List.firstn_app, List.firstn_all, Nat.sub_diag.
  cbn [firstn]. apply List.app_nil_r.
Qed.

Section Cycle.
Context `{LensAdapter}.

(** A cycle whose [recvfrom] returned -1 does not enter the merge. *)
Lemma receive_failed (io : cycle_io) (g : globals) :
  recv_status io = -1 -> receive_and_apply io g = Some g.
Proof. intro Hr. unfold receive_and_apply. now rewrite Hr. Qed.

(** C4, as amended: in a cycle where [recvfrom] fails, the three groups,
    [all_cmds] and the flag are as before and [all_data] holds the three
    groups as they are.  The wire carries what the two sends took: of the
    packet, the bytes of the three groups, as many bytes as the first send
    returned, then of the frame as many as the second returned; the second
    send is made only if the first returned a positive count.  The session
    stays open, and the loop goes on to the next cycle, exactly when both
    sends return a positive count; otherwise the loop ends there.  When both
    sends go through in full the wire carries the whole packet followed by
    the whole frame. *)
Theorem cycle_without_command (io : cycle_io) (g : globals) :
  recv_status io = -1 ->
  let packet := bytes_of_astrometry (all_astro_params (store g)) ++
                bytes_of_camera_params (all_camera_params (store g)) ++
                bytes_of_blob_params (all_blob_params (store g)) in
  let frame := read_bytes (camera_raw io) (CAMERA_WIDTH * CAMERA_HEIGHT) in
  let g' := mkGlobals (store g) (all_cmds g)
              (telemetry.mk (all_astro_params (store g)) (all_camera_params (store g))
                            (all_blob_params (store g)))
              (command_lock g) in
  exists wire st,
    processClient_cycle io g = Some (g', wire, st) /\
    wire = (if send_telemetry_status io <=? 0 then []
            else sent packet (send_telemetry_status io) ++
                 (if send_image_status io <=? 0 then []
                  else sent frame (send_image_status io))) /\
    st = (if (0 <? send_telemetry_status io) && (0 <? send_image_status io)
          then Open else Closed) /\
    Z.of_nat (List.length packet) = sizeof struct_telemetry /\
    (0 < send_telemetry_status io -> 0 < send_image_status io ->
     st = Open /\
     forall rest, processClient (io :: rest) g = and_then wire (processClient rest g')) /\
    (send_telemetry_status io <= 0 \/ send_image_status io <= 0 ->
     st = Closed /\
     forall rest, processClient (io :: rest) g = Some (g', wire, Closed)) /\
    (send_telemetry_status io = sizeof struct_telemetry ->
     send_image_status io = CAMERA_WIDTH * CAMERA_HEIGHT ->
     wire = packet ++ frame /\ st = Open).
Proof.
  intros Hr packet frame g'.
  assert (Hcycle : processClient_cycle io g = Some (transmit io g)).
  { unfold processClient_cycle. now rewrite (receive_failed io g Hr). }
  rewrite (transmit_wire io g) in Hcycle. fold packet frame g' in Hcycle.
  eexists _, _. split; [exact Hcycle|]. split; [reflexivity|]. split; [reflexivity|].
  split; [apply packet_length|]. split; [|split].
  - intros P1 P2. apply Z.ltb_lt in P1, P2.
    assert (Hst : (if (0 <? send_telemetry_status io) && (0 <? send_image_status io)
                   then Open else Closed) = Open) by now rewrite P1, P2.
    split; [exact Hst|]. intro rest. cbn [processClient]. rewrite Hcycle, Hst.
    reflexivity.
  - intros Hfail.
    assert (Hst : (if (0 <? send_telemetry_status io) && (0 <? send_image_status io)
                   then Open else Closed) = Closed).
    { destruct (Z.ltb_spec 0 (send_telemetry_status io));
        destruct (Z.ltb_spec 0 (send_image_status io)); cbn [andb]; try reflexivity; lia. }
    split; [exact Hst|]. intro rest. cbn [processClient]. rewrite Hcycle, Hst.
    reflexivity.
  - intros F1 F2. split.
    + apply sent_in_full; [apply packet_length | apply frame_length | exact F1 | exact F2].
    + rewrite F1, F2. reflexivity.
Qed.

(** C7, as amended: every packet has the [sizeof (struct telemetry)] bytes,
    the sum of the sizes of the three packed groups, whatever the fields
    hold, and the frame has [CAMERA_WIDTH * CAMERA_HEIGHT] bytes.  A cycle
    puts on the wire as many bytes of the packet as the first send returned
    and, right after them, as many bytes of the frame as the second send
    returned, that many bytes in all; only when both sends return the full
    counts is that the whole packet followed by the whole frame. *)
Theorem telemetry_then_frame (io : cycle_io) (g g' : globals)
  (wire : list Byte.byte) (st : session) :
  processClient_cycle io g = Some (g', wire, st) ->
  let packet := bytes_of_astrometry (telemetry.astrom (all_data g')) ++
                bytes_of_camera_params (telemetry.cam_settings (all_data g')) ++
                bytes_of_blob_params (telemetry.current_blob_params (all_data g')) in
  let frame := read_bytes (camera_raw io) (CAMERA_WIDTH * CAMERA_HEIGHT) in
  (forall t : telemetry.t, Z.of_nat (List.length (bytes_of_telemetry t)) = sizeof struct_telemetry) /\
  Z.of_nat (List.length packet) = sizeof struct_telemetry /\
  sizeof struct_telemetry =
    sizeof struct_astrometry + sizeof struct_camera_params + sizeof struct_blob_params /\
  Z.of_nat (List.length frame) = CAMERA_WIDTH * CAMERA_HEIGHT /\
  wire = (if send_telemetry_status io <=? 0 then []
          else sent packet (send_telemetry_status io) ++
               (if send_image_status io <=? 0 then []
                else sent frame (send_image_status io))) /\
  (0 < send_telemetry_status io <= sizeof struct_telemetry ->
   0 < send_image_status io <= CAMERA_WIDTH * CAMERA_HEIGHT ->
   st = Open /\
   Z.of_nat (List.length wire) = send_telemetry_status io + send_image_status io) /\
  (send_telemetry_status io = sizeof struct_telemetry ->
   send_image_status io = CAMERA_WIDTH * CAMERA_HEIGHT ->
   wire = packet ++ frame /\ st = Open).
Proof.
  intro Hc. unfold processClient_cycle in Hc.
  destruct (receive_and_apply io g) as [g1|]; [|discriminate Hc].
  rewrite (transmit_wire io g1) in Hc. cbv zeta in Hc.
  apply cycle_result_inv in Hc. destruct Hc as (<- & <- & <-).
  cbv zeta.
  cbn [all_data telemetry.astrom telemetry.cam_settings telemetry.current_blob_params].
  pose proof (packet_length (all_astro_params (store g1)) (all_camera_params (store g1))
                (all_blob_params (store g1))) as Hp.
  pose proof (frame_length (camera_raw io)) as Hf.
  set (packet := bytes_of_astrometry _ ++ _) in *.
  set (frame := read_bytes _ _) in *.
  clearbody packet frame.
  split; [exact bytes_of_telemetry_length|].
  split; [exact Hp|].
  split; [exact sizeof_struct_telemetry|].
  split; [exact Hf|].
  split; [reflexivity|]. split.
  - intros [P1 S1] [P2 S2].
    destruct (Z.leb_spec (send_telemetry_status io) 0) as [L|_]; [lia|].
    destruct (Z.leb_spec (send_image_status io) 0) as [L|_]; [lia|].
    apply Z.ltb_lt in P1 as Q1. apply Z.ltb_lt in P2 as Q2. rewrite Q1, Q2.
    split; [reflexivity|].
    rewrite List.length_app, Nat2Z.inj_add, !sent_length; lia.
  - intros F1 F2. split.
    + apply sent_in_full; [exact Hp | exact Hf | exact F1 | exact F2].
    + rewrite F1, F2. reflexivity.
Qed.

End Cycle.

(** C4, at a cycle in which nothing arrives and both sends go through in
    full, starting from an [all_data] left from an earlier state: the packet
    is the bytes of the groups as they are now. *)
Lemma quiet_cycle_sends_snapshot :
  recv_status Standin.quiet_cycle = -1 /\
  exists wire st,
    @processClient_cycle Standin.lens Standin.quiet_cycle Sample.globals_stale =
      Some (mkGlobals Standin.store0 Standin.cmd_spike
              (telemetry.mk Standin.astro0 Standin.camera0 Standin.blob0) 0, wire, st) /\
    wire = (bytes_of_astrometry Standin.astro0 ++ bytes_of_camera_params Standin.camera0 ++
            bytes_of_blob_params Standin.blob0) ++
           read_bytes (camera_raw Standin.quiet_cycle) (CAMERA_WIDTH * CAMERA_HEIGHT) /\
    st = Open /\
    blob_params.spike_limit (telemetry.current_blob_params (all_data Sample.globals_stale)) = 0 /\
    blob_params.spike_limit Standin.blob0 = 3.
Proof.
  split; [reflexivity|].
  pose proof (@cycle_without_command Standin.lens Standin.quiet_cycle Sample.globals_stale
                eq_refl) as T.
  cbv zeta in T. destruct T as (wire & st & Hc & _ & _ & _ & _ & _ & Hsend).
  exists wire, st. split; [exact Hc|].
  destruct (Hsend eq_refl eq_refl) as [Hw Hst].
  split; [exact Hw|]. split; [exact Hst|]. split; reflexivity.
Defined.

(** C4 as the spec has it fails at a cycle in which nothing arrives and the
    peer is gone: [recvfrom] and the first [send] both return -1, nothing is
    sent and the session is closed. *)
Lemma silent_cycle_peer_gone :
  recv_status Sample.gone_cycle = -1 /\
  send_telemetry_status Sample.gone_cycle = -1 /\
  @processClient_cycle Standin.lens Sample.gone_cycle Sample.globals_stale =
    Some (mkGlobals Standin.store0 Standin.cmd_spike
            (telemetry.mk Standin.astro0 Standin.camera0 Standin.blob0) 0, [], Closed) /\
  @processClient Standin.lens [Sample.gone_cycle; Standin.quiet_cycle] Sample.globals_stale =
    Some (mkGlobals Standin.store0 Standin.cmd_spike
            (telemetry.mk Standin.astro0 Standin.camera0 Standin.blob0) 0, [], Closed).
Proof. repeat split. Qed.

(** C7, at a cycle in which both sends go through in full. *)
Lemma quiet_cycle_wire_layout :
  let t := transmit Standin.quiet_cycle Sample.globals_stale in
  let packet := bytes_of_astrometry (telemetry.astrom (all_data (fst (fst t)))) ++
                bytes_of_camera_params (telemetry.cam_settings (all_data (fst (fst t)))) ++
                bytes_of_blob_params (telemetry.current_blob_params (all_data (fst (fst t)))) in
  let frame := read_bytes (camera_raw Standin.quiet_cycle) (CAMERA_WIDTH * CAMERA_HEIGHT) in
  (forall t : telemetry.t, Z.of_nat (List.length (bytes_of_telemetry t)) = 184) /\
  Z.of_nat (List.length packet) = 184 /\
  184 = 96 + 44 + 44 /\
  Z.of_nat (List.length frame) = 2354176 /\
  snd (fst t) = packet ++ frame /\
  snd t = Open.
Proof.
  pose proof (@telemetry_then_frame Standin.lens Standin.quiet_cycle Sample.globals_stale
           (fst (fst (transmit Standin.quiet_cycle Sample.globals_stale)))
           (snd (fst (transmit Standin.quiet_cycle Sample.globals_stale)))
           (snd (transmit Standin.quiet_cycle Sample.globals_stale))) as T.
  cbv zeta in T. cbv zeta.
  destruct T as (Hall & Hp & Hsum & Hf & _ & _ & Hfull).
  - unfold processClient_cycle.
    rewrite (@receive_failed Standin.lens Standin.quiet_cycle Sample.globals_stale eq_refl).
    destruct (transmit Standin.quiet_cycle Sample.globals_stale) as [[g' wire] st].
    reflexivity.
  - destruct (Hfull eq_refl eq_refl) as [Hw Hst].
    split; [exact Hall|]. split; [exact Hp|]. split; [exact Hsum|]. split; [exact Hf|].
    split; [exact Hw | exact Hst].
Defined.

(** C7 as the spec has it fails at a cycle whose first send stops after 100
    bytes: the session goes on, and the wire carries 100 bytes of the 184 of
    the packet with the frame right after them. *)
Lemma short_send_cuts_the_packet :
  let packet := bytes_of_astrometry Standin.astro0 ++ bytes_of_camera_params Standin.camera0 ++
                bytes_of_blob_params Standin.blob0 in
  let frame := read_bytes (camera_raw Sample.short_cycle) (CAMERA_WIDTH * CAMERA_HEIGHT) in
  send_telemetry_status Sample.short_cycle = 100 /\
  sizeof struct_telemetry = 184 /\
  @processClient_cycle Standin.lens Sample.short_cycle Sample.globals_stale =
    Some (mkGlobals Standin.store0 Standin.cmd_spike
            (telemetry.mk Standin.astro0 Standin.camera0 Standin.blob0) 0,
          firstn 100 packet ++ frame, Open) /\
  List.length (firstn 100 packet) = 100%nat /\
  Z.of_nat (List.length (firstn 100 packet ++ frame)) = 100 + CAMERA_WIDTH * CAMERA_HEIGHT.
Proof.
  cbv zeta. split; [reflexivity|]. split; [reflexivity|].
  assert (Hframe :
    sent (read_bytes (camera_raw Sample.short_cycle) (CAMERA_WIDTH * CAMERA_HEIGHT))
         (CAMERA_WIDTH * CAMERA_HEIGHT) =
    read_bytes (camera_raw Sample.short_cycle) (CAMERA_WIDTH * CAMERA_HEIGHT)).
  { apply sent_all. rewrite read_bytes_length, Z2Nat.id; [reflexivity|].
    apply Z.lt_le_incl, frame_size_positive. }
  split.
  - unfold processClient_cycle.
    rewrite (@receive_failed Standin.lens Sample.short_cycle Sample.globals_stale eq_refl).
    rewrite (transmit_wire Sample.short_cycle Sample.globals_stale).
    change (send_telemetry_status Sample.short_cycle) with 100.
    change (send_image_status Sample.short_cycle) with (CAMERA_WIDTH * CAMERA_HEIGHT).
    replace (CAMERA_WIDTH * CAMERA_HEIGHT <=? 0) with false by reflexivity.
    replace (0 <? CAMERA_WIDTH * CAMERA_HEIGHT) with true by reflexivity.
    change (100 <=? 0) with false. change (0 <? 100) with true. cbn [andb]. cbv iota.
    rewrite Hframe. reflexivity.
  - split; [reflexivity|].
    rewrite List.length_app, Nat2Z.inj_add, read_bytes_length, Z2Nat.id;
      [reflexivity | apply Z.lt_le_incl, frame_size_positive].
Qed.

(** The 184 bytes of the packet of the groups as they are initialised, low
    byte first: the twelve [double] of the astrometry group, the camera
    group, the blob group. *)
Example packet_of_initial_groups :
  map (fun b => Z.of_N (Byte.to_N b))
    (bytes_of_astrometry Standin.astro0 ++ bytes_of_camera_params Standin.camera0 ++
     bytes_of_blob_params Standin.blob0) =
  [
   0; 0; 0; 0; 0; 0; 0; 0; 0; 0; 0; 0; 132; 215; 151; 65; 46; 40; 37; 103; 85; 101; 68; 64;
   1; 45; 225; 249; 154; 107; 82; 192; 31; 133; 235; 81; 184; 158; 77; 64; 0; 0; 0; 0; 0;
   0; 0; 0; 0; 0; 0; 0; 0; 0; 0; 0; 0; 0; 0; 0; 0; 0; 0; 0; 0; 0; 0; 0; 0; 0; 0; 0; 0; 0;
   0; 0; 0; 0; 0; 0; 0; 0; 0; 0; 0; 0; 0; 0; 0; 0; 0; 0; 0; 0; 0; 0
  ] ++ [
   0; 0; 0; 0; 0; 0; 137; 64; 0; 0; 0; 0; 0; 0; 0; 0; 0; 0; 0; 0; 0; 0; 0; 0; 0; 0; 0; 0;
   0; 0; 0; 0; 0; 0; 0; 0; 0; 0; 0; 0; 0; 0; 0; 0
  ] ++ [
   3; 0; 0; 0; 1; 0; 0; 0; 2; 0; 0; 0; 0; 0; 0; 0; 10; 0; 0; 0; 1; 0; 0; 0; 0; 0; 0; 0; 0;
   0; 0; 64; 15; 0; 0; 0; 0; 0; 0; 0; 1; 0; 0; 0
  ].
Proof. vm_compute. reflexivity. Qed.

(** ** The text of a log record *)

Lemma count_char_app (c : ascii) (a b : string) :
  count_char c (a ++ b)%string = (count_char c a + count_char c b)%nat.
Proof.
  induction a as [|x a IH]; cbn [String.append count_char].
  - reflexivity.
  - rewrite IH. now rewrite Nat.add_assoc.
Qed.

Lemma all_numeric_app (a b : string) :
  all_numeric (a ++ b)%string = all_numeric a && all_numeric b.
Proof.
  induction a as [|x a IH]; cbn [String.append all_numeric].
  - reflexivity.
  - rewrite IH. now rewrite andb_assoc.
Qed.

(** A character that the conversions never print does not occur in a text of
    such characters. *)
Lemma count_char_all_numeric (c : ascii) (s : string) :
  numeric_char c = false -> all_numeric s = true -> count_char c s = O.
Proof.
  intros Hc. induction s as [|a s IH]; cbn [all_numeric count_char]; intro Hs.
  - reflexivity.
  - apply andb_prop in Hs as [Ha Hs]. rewrite (IH Hs).
    destruct (Ascii.eqb_spec a c) as [->|_]; [congruence|reflexivity].
Qed.

Lemma all_numeric_string_of_uint (d : Decimal.uint) :
  all_numeric (NilEmpty.string_of_uint d) = true.
Proof. induction d; cbn [NilEmpty.string_of_uint all_numeric]; auto. Qed.

Lemma all_numeric_nilzero (d : Decimal.uint) :
  all_numeric (NilZero.string_of_uint d) = true.
Proof.
  destruct d; cbv beta iota delta [NilZero.string_of_uint];
    solve [reflexivity | apply all_numeric_string_of_uint].
Qed.

Lemma all_numeric_printf_i (z : Z) : all_numeric (printf_i z) = true.
Proof.
  unfold printf_i, NilZero.string_of_int.
  destruct (Z.to_int z) as [d|d]; cbn [all_numeric]; rewrite ?andb_true_l;
    apply all_numeric_nilzero.
Qed.

Lemma numeric_digit (z : Z) : numeric_char (digit (z mod 10)) = true.
Proof.
  assert (Hr : 0 <= z mod 10 < 10) by (apply Z.mod_pos_bound; lia).
  assert (Hcases : z mod 10 = 0 \/ z mod 10 = 1 \/ z mod 10 = 2 \/ z mod 10 = 3 \/
                   z mod 10 = 4 \/ z mod 10 = 5 \/ z mod 10 = 6 \/ z mod 10 = 7 \/
                   z mod 10 = 8 \/ z mod 10 = 9) by lia.
  repeat destruct Hcases as [-> | Hcases]; try rewrite Hcases; reflexivity.
Qed.

Lemma all_numeric_fixed_digits (n : nat) (z : Z) : all_numeric (fixed_digits n z) = true.
Proof.
  revert z. induction n as [|n IH]; intro z; cbn [fixed_digits].
  - reflexivity.
  - rewrite all_numeric_app, IH. cbn [all_numeric]. now rewrite numeric_digit.
Qed.

Lemma all_numeric_printf_f (p : nat) (x : double) : all_numeric (printf_f p x) = true.
Proof.
  unfold printf_f. destruct x as [s | s | | s m e].
  - rewrite !all_numeric_app, all_numeric_fixed_digits. now destruct s.
  - rewrite all_numeric_app. now destruct s.
  - reflexivity.
  - rewrite !all_numeric_app, all_numeric_printf_i, all_numeric_fixed_digits.
    now destruct s.
Qed.

Lemma all_numeric_printf_double (minus : bool) (p : nat) (x : double) :
  all_numeric (printf_double minus p x) = true.
Proof.
  unfold printf_double. destruct x; try apply all_numeric_printf_f.
  now destruct minus.
Qed.

(** A record holds eight separators, hence nine fields, and no line
    terminator. *)
Lemma log_record_shape (num_blobs : Z) (a : astrometry.t) (env : call_env) :
  count_char "|" (log_record num_blobs a env) = 8%nat /\
  count_lines (log_record num_blobs a env) = O.
Proof.
  unfold count_lines, log_record.
  repeat rewrite count_char_app.
  repeat rewrite (count_char_all_numeric _ (printf_double _ _ _)) by
    (reflexivity || apply all_numeric_printf_double).
  repeat rewrite (count_char_all_numeric _ (printf_i _)) by
    (reflexivity || apply all_numeric_printf_i).
  split; reflexivity.
Qed.

(** ** [lostInSpace] *)

Section Solve.
Context `{AstrometryNet} `{Sofa} `{LibM}.

Lemma ran_best_match (s : solver_t) :
  best_match_solves (ran s) = fst (solver_run s) /\
  best_match_wcstan (ran s) = snd (solver_run s).
Proof. unfold ran. destruct (solver_run s). split; reflexivity. Qed.

(** The three ways out of [lostInSpace]. *)
Lemma lostInSpace_unsolved (star_x star_y star_mags : list double) (num_blobs : Z)
  (tm_info : tm) (datafile : string) (env : call_env) (w : world) :
  let cs := configured_solver star_x star_y star_mags num_blobs env w in
  fst (solver_run cs) = false ->
  lostInSpace star_x star_y star_mags num_blobs tm_info datafile env w =
  Returned (0, mkWorld (state w) (engine_indexes w) (cleaned_up (ran cs)) (files w)).
Proof.
  intros cs Hs. unfold lostInSpace. fold cs.
  destruct (ran_best_match cs) as [-> _]. now rewrite Hs.
Qed.

Lemma lostInSpace_solved (star_x star_y star_mags : list double) (num_blobs : Z)
  (tm_info : tm) (datafile : string) (env : call_env) (w : world) :
  let cs := configured_solver star_x star_y star_mags num_blobs env w in
  fst (solver_run cs) = true ->
  datafile_opens env = true ->
  let r := reduce (snd (solver_run cs)) tm_info w in
  let a := update_astro (fst r) (fst (fst (snd r))) (snd (fst (snd r))) (snd (snd r))
                        (all_astro_params (state w)) in
  lostInSpace star_x star_y star_mags num_blobs tm_info datafile env w =
  Returned
    (1, mkWorld (with_astro a (state w)) (engine_indexes w) (cleaned_up (ran cs))
                (append_to datafile (written env (log_record num_blobs a env)) (files w))).
Proof.
  intros cs Hs Ho r a. unfold lostInSpace. fold cs.
  destruct (ran_best_match cs) as [-> ->]. rewrite Hs. fold r.
  subst a. destruct r as [ob [[fr ps] ir]]. now rewrite Ho.
Qed.

Lemma lostInSpace_no_stream (star_x star_y star_mags : list double) (num_blobs : Z)
  (tm_info : tm) (datafile : string) (env : call_env) (w : world) :
  fst (solver_run (configured_solver star_x star_y star_mags num_blobs env w)) = true ->
  datafile_opens env = false ->
  lostInSpace star_x star_y star_mags num_blobs tm_info datafile env w = Crashed.
Proof.
  intros Hs Ho. unfold lostInSpace.
  destruct (ran_best_match (configured_solver star_x star_y star_mags num_blobs env w))
    as [-> ->].
  rewrite Hs. destruct (reduce _ tm_info w) as [ob [[fr ps] ir]]. now rewrite Ho.
Qed.

(** A call that returns has taken the first or the second way. *)
Lemma lostInSpace_returned (star_x star_y star_mags : list double) (num_blobs : Z)
  (tm_info : tm) (datafile : string) (env : call_env) (w w' : world) (st : Z) :
  let cs := configured_solver star_x star_y star_mags num_blobs env w in
  lostInSpace star_x star_y star_mags num_blobs tm_info datafile env w = Returned (st, w') ->
  (st = 0 /\ fst (solver_run cs) = false /\
   w' = mkWorld (state w) (engine_indexes w) (cleaned_up (ran cs)) (files w)) \/
  (st = 1 /\ fst (solver_run cs) = true /\ datafile_opens env = true /\
   let r := reduce (snd (solver_run cs)) tm_info w in
   let a := update_astro (fst r) (fst (fst (snd r))) (snd (fst (snd r))) (snd (snd r))
                         (all_astro_params (state w)) in
   w' = mkWorld (with_astro a (state w)) (engine_indexes w) (cleaned_up (ran cs))
                (append_to datafile (written env (log_record num_blobs a env)) (files w))).
Proof.
  intros cs Hr.
  destruct (fst (solver_run cs)) eqn:Hs.
  - destruct (datafile_opens env) eqn:Ho.
    + rewrite (lostInSpace_solved _ _ _ _ tm_info datafile _ _ Hs Ho) in Hr.
      injection Hr as <- <-. right. repeat split.
    + rewrite (lostInSpace_no_stream _ _ _ _ tm_info datafile _ _ Hs Ho) in Hr.
      discriminate Hr.
  - rewrite (lostInSpace_unsolved _ _ _ _ tm_info datafile _ _ Hs) in Hr.
    injection Hr as <- <-. left. repeat split.
Qed.

Lemma append_to_same (name text : string) (fs : string -> string) :
  append_to name text fs name = (fs name ++ text)%string.
Proof. unfold append_to. now rewrite String.eqb_refl. Qed.

Lemma append_to_other (name text : string) (fs : string -> string) (f : string) :
  f <> name -> append_to name text fs f = fs f.
Proof.
  intro Hne. unfold append_to.
  destruct (String.eqb_spec f name); [contradiction|reflexivity].
Qed.

(** C8: the solver that [solver_run] is called on has the pixel-scale bounds
    [MIN_PS] and [MAX_PS] and, as smallest quad, a tenth of the smaller of the
    frame width and height, each less twice the margin: 0.1 * 1216, the
    [double] printed as 121.600000000000009. *)
Theorem configured_solver_scales (star_x star_y star_mags : list double) (num_blobs : Z)
  (env : call_env) (w : world) :
  let s := configured_solver star_x star_y star_mags num_blobs env w in
  funits_lower s = MIN_PS /\
  funits_upper s = MAX_PS /\
  quadsize_min s =
    Dmul (Ddiv (D_of_Z 1) (D_of_Z 10))
         (D_of_Z (Z.min (CAMERA_WIDTH - 2 * CAMERA_MARGIN) (CAMERA_HEIGHT - 2 * CAMERA_MARGIN))) /\
  Z.min (CAMERA_WIDTH - 2 * CAMERA_MARGIN) (CAMERA_HEIGHT - 2 * CAMERA_MARGIN) = 1216 /\
  printf_f 15 (quadsize_min s) = "121.600000000000009"%string /\
  printf_f 1 (funits_lower s) = "6.0"%string /\
  printf_f 1 (funits_upper s) = "6.5"%string.
Proof.
  cbv zeta. cbn [configured_solver funits_lower funits_upper quadsize_min].
  repeat split; vm_compute; reflexivity.
Qed.

(** C3: when the solver finds no match, [lostInSpace] returns 0, leaves
    [all_astro_params] (and the other groups) as it was and writes to no
    file; the data file is not even opened. *)
Theorem lostInSpace_no_match (star_x star_y star_mags : list double) (num_blobs : Z)
  (tm_info : tm) (datafile : string) (env : call_env) (w : world) :
  fst (solver_run (configured_solver star_x star_y star_mags num_blobs env w)) = false ->
  exists w' : world,
    lostInSpace star_x star_y star_mags num_blobs tm_info datafile env w = Returned (0, w') /\
    all_astro_params (state w') = all_astro_params (state w) /\
    state w' = state w /\
    files w' = files w.
Proof.
  intros Hs. eexists.
  rewrite (lostInSpace_unsolved _ _ _ _ tm_info datafile _ _ Hs).
  repeat split.
Qed.

(** C6, as amended: a solve that finds a match, whose data file opens and
    whose write goes through, returns 1 and appends one record to the data
    file, after what the file held: nine fields
    [numBlobs|ra|dec|fr|ps|alt|az|ir|elapsedMs] with eight separators and no
    line terminator; no other file changes. *)
Theorem lostInSpace_appends_record (star_x star_y star_mags : list double) (num_blobs : Z)
  (tm_info : tm) (datafile : string) (env : call_env) (w : world) :
  fst (solver_run (configured_solver star_x star_y star_mags num_blobs env w)) = true ->
  datafile_opens env = true ->
  write_cut env = None ->
  exists w' : world,
    lostInSpace star_x star_y star_mags num_blobs tm_info datafile env w = Returned (1, w') /\
    let a := all_astro_params (state w') in
    let record :=
      (printf_i (int_of_unsigned num_blobs) ++ "|" ++
       printf_double (nan_minus env 1) 6 (astrometry.ra a) ++ "|" ++
       printf_double (nan_minus env 2) 6 (astrometry.dec a) ++ "|" ++
       printf_double (nan_minus env 3) 6 (astrometry.fr a) ++ "|" ++
       printf_double (nan_minus env 4) 6 (astrometry.ps a) ++ "|" ++
       printf_double (nan_minus env 5) 15 (astrometry.alt a) ++ "|" ++
       printf_double (nan_minus env 6) 15 (astrometry.az a) ++ "|" ++
       printf_double (nan_minus env 7) 6 (astrometry.ir a) ++ "|" ++
       printf_double (nan_minus env 8) 6
         (Dmul (astrom_time env) (Ddiv (D_of_Z 1) (D_of_Z 1000000))))%string in
    files w' datafile = (files w datafile ++ record)%string /\
    (forall f : string, f <> datafile -> files w' f = files w f) /\
    count_char "|" record = 8%nat /\
    count_lines record = O /\
    count_lines (files w' datafile) = count_lines (files w datafile).
Proof.
  intros Hs Ho Hw. eexists.
  rewrite (lostInSpace_solved _ _ _ _ tm_info datafile _ _ Hs Ho).
  split; [reflexivity|]. cbv zeta. cbn [state files with_astro all_astro_params].
  unfold written. rewrite Hw.
  match goal with
  | |- context [log_record ?n ?a ?e] =>
      destruct (log_record_shape n a e) as [Hbars Hlines];
      change (files w datafile ++ _)%string with (files w datafile ++ log_record n a e)%string;
      set (record := log_record n a e) in *
  end.
  split; [apply append_to_same|].
  split; [intros f Hf; now apply append_to_other|].
  split; [exact Hbars|]. split; [exact Hlines|].
  rewrite append_to_same. unfold count_lines in *.
  rewrite count_char_app, Hlines. apply Nat.add_0_r.
Qed.

(** What a call that returned 1 has stored and logged. *)
Lemma observed_place_after_return (star_x star_y star_mags : list double)
  (num_blobs : Z) (tm_info : tm) (datafile : string) (env : call_env) (w w' : world) :
  lostInSpace star_x star_y star_mags num_blobs tm_info datafile env w = Returned (1, w') ->
  let cs := configured_solver star_x star_y star_mags num_blobs env w in
  let centre :=
    tan_pixelxy2radec (snd (solver_run cs))
      (Ddiv (D_of_Z (CAMERA_WIDTH - 2 * CAMERA_MARGIN - 1)) (D_of_Z 2))
      (Ddiv (D_of_Z (CAMERA_HEIGHT - 2 * CAMERA_MARGIN - 1)) (D_of_Z 2)) in
  exists (rest : list double) (j : Z) (ob : atco13) (tail : string),
    iauAtco13 (Dmul (fst centre) deg2rad :: Dmul (snd centre) deg2rad :: rest) = (j, ob) /\
    astrometry.ra (all_astro_params (state w')) = Dmul (rob ob) rad2deg /\
    astrometry.dec (all_astro_params (state w')) = Dmul (dob ob) rad2deg /\
    astrometry.alt (all_astro_params (state w')) = Dsub (D_of_Z 90) (Dmul (zob ob) rad2deg) /\
    let record :=
      (printf_i (int_of_unsigned num_blobs) ++ "|" ++
       printf_double (nan_minus env 1) 6 (Dmul (rob ob) rad2deg) ++ "|" ++
       printf_double (nan_minus env 2) 6 (Dmul (dob ob) rad2deg) ++ "|" ++ tail)%string in
    files w' datafile =
      (files w datafile ++
       match write_cut env with
       | None => record
       | Some k => substring 0 k record
       end)%string.
Proof.
  intros Hr cs centre.
  destruct (lostInSpace_returned _ _ _ _ _ _ _ _ _ _ Hr)
    as [(H01 & _) | (_ & Hs & Ho & Hw)]; [discriminate H01|].
  cbv zeta in Hw. subst w'. cbn [state with_astro all_astro_params files].
  rewrite append_to_same. unfold written.
  unfold reduce. fold cs. change (usable_width - 1) with (CAMERA_WIDTH - 2 * CAMERA_MARGIN - 1).
  change (usable_height - 1) with (CAMERA_HEIGHT - 2 * CAMERA_MARGIN - 1).
  fold centre. destruct centre as [ra dec].
  destruct (iauDtf2d _ _ _ _ _ _ _) as [j0 [d1 d2]].
  match goal with
  | |- context [iauAtco13 (_ :: _ :: ?r)] => set (rest := r)
  end.
  destruct (iauAtco13 _) as [j ob] eqn:Hob.
  cbn [fst snd].
  eexists rest, j, ob, _. split; [exact Hob|].
  repeat split.
Qed.

(** C10: a solve that finds a match and opens its data file returns 1 (no
    other call does); the right ascension and declination it has stored are
    the [rob] and [dob] that [iauAtco13] returned for the frame centre, times
    180/pi, and the stored altitude is 90 minus [zob] times 180/pi; the
    record given to [fprintf] prints these, and the data file ends with what
    the write has left of that record: all of it when the write went
    through. *)
Theorem lostInSpace_stores_observed_place (star_x star_y star_mags : list double)
  (num_blobs : Z) (tm_info : tm) (datafile : string) (env : call_env) (w : world) :
  let cs := configured_solver star_x star_y star_mags num_blobs env w in
  let centre :=
    tan_pixelxy2radec (snd (solver_run cs))
      (Ddiv (D_of_Z (CAMERA_WIDTH - 2 * CAMERA_MARGIN - 1)) (D_of_Z 2))
      (Ddiv (D_of_Z (CAMERA_HEIGHT - 2 * CAMERA_MARGIN - 1)) (D_of_Z 2)) in
  fst (solver_run cs) = true ->
  datafile_opens env = true ->
  exists (w' : world) (rest : list double) (j : Z) (ob : atco13) (tail : string),
    lostInSpace star_x star_y star_mags num_blobs tm_info datafile env w = Returned (1, w') /\
    iauAtco13 (Dmul (fst centre) deg2rad :: Dmul (snd centre) deg2rad :: rest) = (j, ob) /\
    astrometry.ra (all_astro_params (state w')) = Dmul (rob ob) rad2deg /\
    astrometry.dec (all_astro_params (state w')) = Dmul (dob ob) rad2deg /\
    astrometry.alt (all_astro_params (state w')) = Dsub (D_of_Z 90) (Dmul (zob ob) rad2deg) /\
    let record :=
      (printf_i (int_of_unsigned num_blobs) ++ "|" ++
       printf_double (nan_minus env 1) 6 (Dmul (rob ob) rad2deg) ++ "|" ++
       printf_double (nan_minus env 2) 6 (Dmul (dob ob) rad2deg) ++ "|" ++ tail)%string in
    files w' datafile =
      (files w datafile ++
       match write_cut env with
       | None => record
       | Some k => substring 0 k record
       end)%string.
Proof.
  intros cs centre Hs Ho.
  pose proof (lostInSpace_solved _ _ _ _ tm_info datafile _ _ Hs Ho) as Hr.
  cbv zeta in Hr.
  match type of Hr with _ = Returned (_, ?x) => set (w' := x) in Hr end.
  destruct (observed_place_after_return _ _ _ _ _ _ _ _ _ Hr)
    as (rest & j & ob & tail & Hrest).
  exists w', rest, j, ob, tail. split; [exact Hr | exact Hrest].
Qed.

End Solve.

(** ** Index selection *)

Section Indexes.
Context `{AstrometryNet} `{LibM}.

(** The indexes given to the solver are a function of the locals [ra] and
    [dec] as they are at entry; [all_astro_params], where the last solution
    is kept, plays no part. *)
Lemma configured_indexes_ignore_astro_params (star_x star_y star_mags : list double)
  (num_blobs : Z) (env : call_env) (w : world) (a : astrometry.t) :
  indexes (configured_solver star_x star_y star_mags num_blobs env
             (mkWorld (with_astro a (state w)) (engine_indexes w) (solver w) (files w))) =
  indexes (configured_solver star_x star_y star_mags num_blobs env w).
Proof. reflexivity. Qed.

(** With an [ra] below -180 at entry every index of the engine is added. *)
Lemma add_indexes_low_ra (ra dec : double) (engine added : list index_t) :
  c_lt ra (D_of_Z (-180)) = true ->
  add_indexes ra dec engine added = added ++ engine.
Proof.
  intro Hlow. unfold add_indexes. revert added.
  induction engine as [|i engine IH]; intro added; cbn [fold_left].
  - now rewrite app_nil_r.
  - rewrite IH. unfold add_if_close. rewrite Hlow.
    destruct (c_ge ra (D_of_Z (-180)) && c_ge dec (D_of_Z (-90)) &&
              index_is_within_range i ra dec (dist2deg hprange));
      cbn [orb]; now rewrite <- app_assoc.
Qed.

End Indexes.

(** C2, the code at a failing input.  The last solution kept in
    [all_astro_params] is (0, 0), a valid guess; the engine has a partition
    around the origin, within the search radius of that guess, and one around
    (100, 45), far outside it.  With the locals [ra], [dec] holding -1000 and
    0 at entry both partitions are added; with 100 and 45, only the far
    one. *)
Theorem index_selection_follows_locals :
  let guess := all_astro_params (state Standin.world0) in
  let radius := @dist2deg Standin.types Standin.net (@hprange Standin.types Standin.net Standin.libm) in
  let selected (env : call_env) :=
    indexes (@configured_solver Standin.types Standin.net Standin.libm
               Standin.stars Standin.stars Standin.stars 3 env Standin.world0) in
  c_ge (astrometry.ra guess) (D_of_Z (-180)) = true /\
  c_ge (astrometry.dec guess) (D_of_Z (-90)) = true /\
  @index_is_within_range Standin.types Standin.net Standin.index_origin
    (astrometry.ra guess) (astrometry.dec guess) radius = true /\
  @index_is_within_range Standin.types Standin.net Standin.index_far
    (astrometry.ra guess) (astrometry.dec guess) radius = false /\
  selected Standin.env_low = [Standin.index_origin; Standin.index_far] /\
  selected Standin.env_far = [Standin.index_far].
Proof. vm_compute. repeat split. Qed.

(** C3, at a call with no stars, which the stand-in solver cannot match. *)
Lemma no_stars_no_change :
  exists w' : world,
    @lostInSpace Standin.types Standin.net Standin.sofa Standin.libm
      [] [] [] 0 Standin.noon Standin.datafile Standin.env_low Standin.world0 =
      Returned (0, w') /\
    all_astro_params (state w') = all_astro_params (state Standin.world0) /\
    state w' = state Standin.world0 /\
    files w' = files Standin.world0.
Proof.
  apply (@lostInSpace_no_match Standin.types Standin.net Standin.sofa Standin.libm
           [] [] [] 0 Standin.noon Standin.datafile Standin.env_low Standin.world0).
  reflexivity.
Defined.

(** C6, counterexample: two solves in a row on an empty data file.  Both find
    a match and both writes go through; the file then holds the two records
    on one line, with no line terminator anywhere. *)
Lemma two_solves_one_line :
  let solve := @lostInSpace Standin.types Standin.net Standin.sofa Standin.libm
                 Standin.stars Standin.stars Standin.stars 3 Standin.noon Standin.datafile
                 Standin.env_low in
  files Standin.world0 Standin.datafile = EmptyString /\
  exists w1 w2 : world,
    solve Standin.world0 = Returned (1, w1) /\
    solve w1 = Returned (1, w2) /\
    count_lines (files w1 Standin.datafile) = O /\
    count_lines (files w2 Standin.datafile) = O /\
    files w2 Standin.datafile =
      ("3|57.295780|0.000000|0.000000|6.000000|61.352110243458839|57.295779513082323|0.000000|250.000000" ++
       "3|57.295780|0.000000|0.000000|6.000000|61.352110243458839|57.295779513082323|0.000000|250.000000")%string.
Proof.
  cbv zeta. split; [reflexivity|]. eexists. eexists.
  split. { vm_compute. reflexivity. }
  split. { vm_compute. reflexivity. }
  vm_compute. repeat split.
Qed.

(** C6, as amended, at a solve of three stars on an empty data file. *)
Lemma three_stars_one_record :
  exists w' : world,
    @lostInSpace Standin.types Standin.net Standin.sofa Standin.libm
      Standin.stars Standin.stars Standin.stars 3 Standin.noon Standin.datafile
      Standin.env_low Standin.world0 = Returned (1, w') /\
    let a := all_astro_params (state w') in
    let record :=
      (printf_i (int_of_unsigned 3) ++ "|" ++
       printf_double false 6 (astrometry.ra a) ++ "|" ++
       printf_double false 6 (astrometry.dec a) ++ "|" ++
       printf_double false 6 (astrometry.fr a) ++ "|" ++
       printf_double false 6 (astrometry.ps a) ++ "|" ++
       printf_double false 15 (astrometry.alt a) ++ "|" ++
       printf_double false 15 (astrometry.az a) ++ "|" ++
       printf_double false 6 (astrometry.ir a) ++ "|" ++
       printf_double false 6
         (Dmul (astrom_time Standin.env_low) (Ddiv (D_of_Z 1) (D_of_Z 1000000))))%string in
    files w' Standin.datafile = (files Standin.world0 Standin.datafile ++ record)%string /\
    (forall f : string, f <> Standin.datafile -> files w' f = files Standin.world0 f) /\
    count_char "|" record = 8%nat /\
    count_lines record = O /\
    count_lines (files w' Standin.datafile) = count_lines (files Standin.world0 Standin.datafile).
Proof.
  apply (@lostInSpace_appends_record Standin.types Standin.net Standin.sofa Standin.libm
           Standin.stars Standin.stars Standin.stars 3 Standin.noon Standin.datafile
           Standin.env_low Standin.world0); reflexivity.
Defined.

(** The world after the solve of three stars. *)
Lemma three_stars_returns :
  exists w' : world,
    @lostInSpace Standin.types Standin.net Standin.sofa Standin.libm
      Standin.stars Standin.stars Standin.stars 3 Standin.noon Standin.datafile
      Standin.env_low Standin.world0 = Returned (1, w').
Proof. eexists. vm_compute. reflexivity. Defined.

(** C10, at the same solve: the frame centre is at right ascension 0, the
    stand-in reduction returns [rob] one radian further, and that is what is
    stored and logged. *)
Lemma three_stars_observed_place :
  let cs := @configured_solver Standin.types Standin.net Standin.libm
              Standin.stars Standin.stars Standin.stars 3 Standin.env_low Standin.world0 in
  let centre :=
    @tan_pixelxy2radec Standin.types Standin.net (snd (@solver_run Standin.types Standin.net cs))
      (Ddiv (D_of_Z (CAMERA_WIDTH - 2 * CAMERA_MARGIN - 1)) (D_of_Z 2))
      (Ddiv (D_of_Z (CAMERA_HEIGHT - 2 * CAMERA_MARGIN - 1)) (D_of_Z 2)) in
  exists (w' : world) (rest : list double) (j : Z) (ob : atco13) (tail : string),
    @lostInSpace Standin.types Standin.net Standin.sofa Standin.libm
      Standin.stars Standin.stars Standin.stars 3 Standin.noon Standin.datafile
      Standin.env_low Standin.world0 = Returned (1, w') /\
    @iauAtco13 Standin.sofa
      (Dmul (fst centre) deg2rad :: Dmul (snd centre) deg2rad :: rest) = (j, ob) /\
    astrometry.ra (all_astro_params (state w')) = Dmul (rob ob) rad2deg /\
    astrometry.dec (all_astro_params (state w')) = Dmul (dob ob) rad2deg /\
    astrometry.alt (all_astro_params (state w')) = Dsub (D_of_Z 90) (Dmul (zob ob) rad2deg) /\
    files w' Standin.datafile =
      (files Standin.world0 Standin.datafile ++ printf_i (int_of_unsigned 3) ++ "|" ++
       printf_double false 6 (Dmul (rob ob) rad2deg) ++ "|" ++
       printf_double false 6 (Dmul (dob ob) rad2deg) ++ "|" ++ tail)%string.
Proof.
  apply (@lostInSpace_stores_observed_place Standin.types Standin.net Standin.sofa
           Standin.libm Standin.stars Standin.stars Standin.stars 3 Standin.noon
           Standin.datafile Standin.env_low Standin.world0); reflexivity.
Defined.

(** The values at that solve: the centre at 0, the stored place at 57.29578
    degrees, one radian. *)
Example three_stars_values :
  let cs := @configured_solver Standin.types Standin.net Standin.libm
              Standin.stars Standin.stars Standin.stars 3 Standin.env_low Standin.world0 in
  exists w' : world,
    @lostInSpace Standin.types Standin.net Standin.sofa Standin.libm
      Standin.stars Standin.stars Standin.stars 3 Standin.noon Standin.datafile
      Standin.env_low Standin.world0 = Returned (1, w') /\
    printf_lf (fst (snd (@solver_run Standin.types Standin.net cs))) = "0.000000"%string /\
    printf_lf (astrometry.ra (all_astro_params (state w'))) = "57.295780"%string /\
    printf_f 15 (astrometry.alt (all_astro_params (state w'))) = "61.352110243458839"%string.
Proof.
  cbv zeta. destruct three_stars_returns as [w' Hr]. exists w'.
  split; [exact Hr|]. vm_compute in Hr. injection Hr as <-.
  vm_compute. repeat split.
Qed.

(** ** The exclusion flag *)

(** C9, the code at a failing schedule.  Two sessions have each received a
    command.  The first reads the flag clear and leaves its [while]; before
    it writes the flag the second reads it clear too; both then set it and
    both are inside the merge. *)
Theorem two_sessions_in_merge :
  let both_sent := Gate.mkPeer true true in
  let schedule :=
    [(0%nat, both_sent); (1%nat, both_sent);    (* each [recvfrom] returns a command *)
     (0%nat, both_sent);                        (* session 0 reads [command_lock]: 0 *)
     (1%nat, both_sent);                        (* session 1 reads [command_lock]: 0 *)
     (0%nat, both_sent);                        (* session 0 writes [command_lock = 1] *)
     (1%nat, both_sent)] in                     (* session 1 writes [command_lock = 1] *)
  Gate.run Gate.two_sessions schedule = Gate.mkConfig 1 [Gate.Merging; Gate.Merging] /\
  Gate.merging (Gate.run Gate.two_sessions schedule) = 2%nat.
Proof. split; reflexivity. Qed.

(** A session alone takes the flag, merges and releases it. *)
Example one_session_in_turn :
  let p := Gate.mkPeer true true in
  Gate.run (Gate.mkConfig 0 [Gate.Receiving])
           [(0%nat, p); (0%nat, p); (0%nat, p); (0%nat, p); (0%nat, p)] =
  Gate.mkConfig 0 [Gate.Sending].
Proof. reflexivity. Qed.

(** * Further properties *)

(** ** Merging the same command again *)

Lemma merge_camera_twice (c : commands.t) (p : camera_params.t) :
  merge_camera c (merge_camera c p) = merge_camera c p.
Proof.
  destruct p as [e fl fm sp ep fs fi fp ma ap].
  unfold merge_camera, exposure_differs.
  generalize (c_ne (commands.focus_pos c) (F_of_Z (-1))) as keep.
  intro keep.
  destruct (c_ne (ceil (commands.exposure c)) (ceil (camera_params.exposure_time
     (camera_params.mk e fl fm sp ep fs fi fp ma ap)))) eqn:E1; destruct keep;
  cbv [camera_params.exposure_time
        camera_params.set_exposure_time camera_params.set_change_exposure_bool
        camera_params.set_focus_mode camera_params.set_start_focus_pos
        camera_params.set_end_focus_pos camera_params.set_focus_step
        camera_params.set_focus_inf camera_params.set_focus_position
        camera_params.set_max_aperture camera_params.set_aperture_steps
        camera_params.change_exposure_bool camera_params.focus_mode
        camera_params.start_focus_pos camera_params.end_focus_pos camera_params.focus_step
        camera_params.focus_inf camera_params.focus_position camera_params.max_aperture
        camera_params.aperture_steps] in *;
  rewrite ?E1;
  try (destruct (c_ne (ceil (commands.exposure c)) (ceil (commands.exposure c))));
  reflexivity.
Qed.

Lemma blob_params_eq (b b' : blob_params.t) :
  blob_params.spike_limit b = blob_params.spike_limit b' ->
  blob_params.r_smooth b = blob_params.r_smooth b' ->
  blob_params.r_high_pass_filter b = blob_params.r_high_pass_filter b' ->
  blob_params.centroid_search_border b = blob_params.centroid_search_border b' ->
  blob_params.n_sigma b = blob_params.n_sigma b' ->
  blob_params.unique_star_spacing b = blob_params.unique_star_spacing b' ->
  blob_params.make_static_hp_mask b = blob_params.make_static_hp_mask b' ->
  blob_params.use_static_hp_mask b = blob_params.use_static_hp_mask b' ->
  blob_params.dynamic_hot_pixels b = blob_params.dynamic_hot_pixels b' ->
  blob_params.high_pass_filter b = blob_params.high_pass_filter b' ->
  blob_params.filter_return_image b = blob_params.filter_return_image b' ->
  b = b'.
Proof.
  destruct b, b'. cbn. intros. subst. reflexivity.
Qed.

Lemma merge_blob_twice (c : commands.t) (b : blob_params.t) :
  merge_blob c (merge_blob c b) = merge_blob c b.
Proof.
  pose proof (merge_blob_fields c (merge_blob c b)) as H2.
  pose proof (merge_blob_fields c b) as H1.
  cbv zeta in H1, H2.
  destruct H2 as (A0 & A2 & A4 & A5 & A7 & A8 & A9 & A10 & A1 & A3 & A6).
  destruct H1 as (B0 & B2 & B4 & B5 & B7 & B8 & B9 & B10 & B1 & B3 & B6).
  apply blob_params_eq; try congruence.
  - rewrite A0, B0. destruct (c_ge (idx (commands.blob_params c) 0) (F_of_Z 0)); reflexivity.
  - rewrite A2, B2. destruct (c_ge (idx (commands.blob_params c) 2) (F_of_Z 0)); reflexivity.
  - rewrite A4, B4. destruct (c_ge (idx (commands.blob_params c) 4) (F_of_Z 0)); reflexivity.
  - rewrite A5, B5. destruct (c_ge (idx (commands.blob_params c) 5) (F_of_Z 0)); reflexivity.
  - rewrite A7, B7. destruct (c_ge (idx (commands.blob_params c) 7) (F_of_Z 0)); reflexivity.
  - rewrite A8, B8. destruct (c_ge (idx (commands.blob_params c) 8) (F_of_Z 0)); reflexivity.
Qed.

(** ** Cycles of a session *)

Section Sessions.
Context `{LensAdapter}.

(** A cycle whose [recvfrom] did not return -1 and that finds the flag clear
    merges the command and leaves the flag clear. *)
Lemma receive_applies (io : cycle_io) (g : globals) :
  recv_status io <> -1 -> command_lock g = 0 ->
  receive_and_apply io g =
  Some (mkGlobals (applyCommand (recv_buffer io) (store g)) (recv_buffer io) (all_data g) 0).
Proof.
  intros Hr Hl. unfold receive_and_apply.
  destruct (Z.eqb_spec (recv_status io) (-1)) as [E|_]; [contradiction|].
  cbn [command_lock store all_cmds all_data]. rewrite Hl. reflexivity.
Qed.

(** X1: whatever [recvfrom] returns other than -1 (a full command, a short
    read, or 0 from a peer that shut down) the contents of [all_cmds] are
    merged and the flag is clear again; [all_data] is filled after the merge,
    from the merged groups, so the packet of the same cycle shows the
    command: its astrometry member has the [logodds], latitude, longitude and
    height of the command, and when the sends go through in full the second
    [double] on the wire is the commanded [logodds]. *)
Theorem command_then_snapshot (io : cycle_io) (g : globals) :
  recv_status io <> -1 -> command_lock g = 0 ->
  let s' := applyCommand (recv_buffer io) (store g) in
  let shown := telemetry.mk (all_astro_params s') (all_camera_params s') (all_blob_params s') in
  let packet := bytes_of_astrometry (all_astro_params s') ++
                bytes_of_camera_params (all_camera_params s') ++
                bytes_of_blob_params (all_blob_params s') in
  let frame := read_bytes (camera_raw io) (CAMERA_WIDTH * CAMERA_HEIGHT) in
  exists wire st,
    processClient_cycle io g = Some (mkGlobals s' (recv_buffer io) shown 0, wire, st) /\
    astrometry.logodds (telemetry.astrom shown) = commands.logodds (recv_buffer io) /\
    astrometry.latitude (telemetry.astrom shown) = commands.latitude (recv_buffer io) /\
    astrometry.longitude (telemetry.astrom shown) = commands.longitude (recv_buffer io) /\
    astrometry.hm (telemetry.astrom shown) = commands.height (recv_buffer io) /\
    telemetry.current_blob_params shown = merge_blob (recv_buffer io) (all_blob_params (store g)) /\
    wire = (if send_telemetry_status io <=? 0 then []
            else sent packet (send_telemetry_status io) ++
                 (if send_image_status io <=? 0 then []
                  else sent frame (send_image_status io))) /\
    (send_telemetry_status io = sizeof struct_telemetry ->
     send_image_status io = CAMERA_WIDTH * CAMERA_HEIGHT ->
     wire = packet ++ frame /\
     st = Open /\
     firstn 8 (skipn 8 wire) = bytes_of_double (commands.logodds (recv_buffer io))).
Proof.
  intros Hr Hl s' shown packet frame.
  unfold processClient_cycle. rewrite (receive_applies io g Hr Hl).
  rewrite transmit_wire. cbv zeta. cbn [store all_cmds command_lock].
  fold s' shown packet frame.
  eexists _, _. split; [reflexivity|].
  split; [reflexivity|]. split; [reflexivity|]. split; [reflexivity|].
  split; [reflexivity|]. split; [reflexivity|]. split; [reflexivity|].
  intros F1 F2.
  rewrite (sent_in_full packet frame _ _ (packet_length _ _ _) (frame_length _) F1 F2).
  split; [reflexivity|]. split; [now rewrite F1, F2|].
  unfold packet, bytes_of_astrometry. rewrite <- !List.app_assoc.
  rewrite skipn_length_app by apply le_bytes_length.
  rewrite firstn_length_app by apply le_bytes_length.
  reflexivity.
Qed.

(** X2: when the first send fails the command has been merged all the same:
    the groups keep its effect, nothing is on the wire, the frame is not
    sent, and the loop ends there whatever the socket would give next. *)
Theorem command_kept_though_peer_gone (io : cycle_io) (g : globals) (rest : list cycle_io) :
  recv_status io <> -1 -> command_lock g = 0 -> send_telemetry_status io <= 0 ->
  let s' := applyCommand (recv_buffer io) (store g) in
  let g' := mkGlobals s' (recv_buffer io) (snapshot s') 0 in
  processClient_cycle io g = Some (g', [], Closed) /\
  processClient (io :: rest) g = Some (g', [], Closed).
Proof.
  intros Hr Hl Hs. cbv zeta.
  assert (Hc : processClient_cycle io g =
               Some (mkGlobals (applyCommand (recv_buffer io) (store g)) (recv_buffer io)
                       (snapshot (applyCommand (recv_buffer io) (store g))) 0, [], Closed)).
  { unfold processClient_cycle. rewrite (receive_applies io g Hr Hl).
    unfold transmit. apply Z.leb_le in Hs. rewrite Hs. reflexivity. }
  split; [exact Hc|]. cbn [processClient]. now rewrite Hc.
Qed.

(** X3: a client that never sends a command never changes the groups,
    [all_cmds] or the flag, over any number of cycles and whatever its sends
    return; and its session never waits for the flag. *)
Theorem silent_client_changes_nothing (ios : list cycle_io) (g : globals) :
  Forall (fun io => recv_status io = -1) ios ->
  exists g' wire st,
    processClient ios g = Some (g', wire, st) /\
    store g' = store g /\ all_cmds g' = all_cmds g /\ command_lock g' = command_lock g.
Proof.
  intro Hq. revert g. induction Hq as [|io ios Hr _ IH]; intro g.
  - exists g, [], Open. repeat split.
  - cbn [processClient]. unfold processClient_cycle. rewrite (receive_failed io g Hr).
    destruct (transmit_session io g) as [Hg _].
    destruct (transmit io g) as [[g1 wire] st]. cbn [fst] in Hg. subst g1.
    destruct st.
    + destruct (IH (mkGlobals (store g) (all_cmds g) (snapshot (store g)) (command_lock g)))
        as (g' & wire' & st' & Hp & Hs & Hc & Hl).
      rewrite Hp. exists g', (wire ++ wire'), st'. cbn [and_then].
      repeat split; assumption.
    + eexists _, wire, Closed. repeat split.
Qed.

(** X4: a short first send is not made up for.  When [send] returns fewer
    bytes than the packet has, the session goes on and the frame follows
    right after the part that was sent. *)
Theorem short_send_not_retried (io : cycle_io) (g g' : globals)
  (wire : list Byte.byte) (st : session) :
  processClient_cycle io g = Some (g', wire, st) ->
  0 < send_telemetry_status io < sizeof struct_telemetry ->
  0 < send_image_status io ->
  let head := firstn (Z.to_nat (send_telemetry_status io)) (bytes_of_telemetry (all_data g')) in
  st = Open /\
  wire = head ++ sent (read_bytes (camera_raw io) (CAMERA_WIDTH * CAMERA_HEIGHT))
                      (send_image_status io) /\
  Z.of_nat (List.length head) = send_telemetry_status io.
Proof.
  intro Hc. unfold processClient_cycle in Hc.
  destruct (receive_and_apply io g) as [g1|]; [|discriminate Hc].
  intros [P1 S1] P2. cbv zeta. unfold transmit in Hc.
  destruct (Z.leb_spec (send_telemetry_status io) 0) as [L|_]; [lia|].
  destruct (Z.leb_spec (send_image_status io) 0) as [L|_]; [lia|].
  injection Hc as <- <- <-. cbn [all_data].
  rewrite object_bytes_telemetry. unfold sent at 1.
  split; [reflexivity|]. split; [reflexivity|].
  rewrite List.length_firstn, Nat2Z.inj_min, Z2Nat.id by lia.
  rewrite bytes_of_telemetry_length. lia.
Qed.

(** ** Merges one after the other *)

(** X5: sending the same command again changes nothing more: each of the
    three merges is idempotent. *)
Theorem merge_twice (c : commands.t) (s : StateStore) :
  merge_astro c (merge_astro c (all_astro_params s)) = merge_astro c (all_astro_params s) /\
  merge_camera c (merge_camera c (all_camera_params s)) = merge_camera c (all_camera_params s) /\
  merge_blob c (merge_blob c (all_blob_params s)) = merge_blob c (all_blob_params s).
Proof.
  split; [reflexivity|]. split.
  - apply merge_camera_twice.
  - apply merge_blob_twice.
Qed.

(** X6: a command never writes the capture time or a result of the solve:
    [rawtime], [ra], [dec], [fr], [ps], [ir], [alt] and [az] are after the
    command what they were before, whatever the lens adapter does. *)
Theorem command_keeps_solution (c : commands.t) (s : StateStore) :
  let a := all_astro_params s in
  let a' := all_astro_params (applyCommand c s) in
  astrometry.rawtime a' = astrometry.rawtime a /\
  astrometry.ra a' = astrometry.ra a /\
  astrometry.dec a' = astrometry.dec a /\
  astrometry.fr a' = astrometry.fr a /\
  astrometry.ps a' = astrometry.ps a /\
  astrometry.ir a' = astrometry.ir a /\
  astrometry.alt a' = astrometry.alt a /\
  astrometry.az a' = astrometry.az a.
Proof. cbv zeta. rewrite applyCommand_groups. repeat split. Qed.

(** X7: of two commands merged one after the other the later one wins, field
    by field: the observer fields are those of the later command alone, and a
    guarded blob field is that of the later command unless it carries the
    sentinel there, then that of the earlier one unless it does too. *)
Theorem later_command_wins (c1 c2 : commands.t) (s : StateStore) :
  let b := all_blob_params s in
  let b2 := merge_blob c2 (merge_blob c1 b) in
  let pick (T : Type) (i : nat) (conv : float -> T) (old : T) : T :=
    if c_ge (idx (commands.blob_params c2) i) (F_of_Z 0) then conv (idx (commands.blob_params c2) i)
    else if c_ge (idx (commands.blob_params c1) i) (F_of_Z 0)
         then conv (idx (commands.blob_params c1) i)
    else old in
  merge_astro c2 (merge_astro c1 (all_astro_params s)) = merge_astro c2 (all_astro_params s) /\
  blob_params.spike_limit b2 = pick Z 0%nat int_of_float (blob_params.spike_limit b) /\
  blob_params.r_smooth b2 = pick Z 2%nat int_of_float (blob_params.r_smooth b) /\
  blob_params.r_high_pass_filter b2 = pick Z 4%nat int_of_float (blob_params.r_high_pass_filter b) /\
  blob_params.centroid_search_border b2 =
    pick Z 5%nat int_of_float (blob_params.centroid_search_border b) /\
  blob_params.n_sigma b2 = pick float 7%nat (fun v => v) (blob_params.n_sigma b) /\
  blob_params.unique_star_spacing b2 =
    pick Z 8%nat int_of_float (blob_params.unique_star_spacing b).
Proof.
  cbv zeta. split; [reflexivity|].
  pose proof (merge_blob_fields c2 (merge_blob c1 (all_blob_params s))) as H2.
  pose proof (merge_blob_fields c1 (all_blob_params s)) as H1.
  cbv zeta in H1, H2.
  destruct H2 as (A0 & A2 & A4 & A5 & A7 & A8 & _).
  destruct H1 as (B0 & B2 & B4 & B5 & B7 & B8 & _).
  rewrite A0, A2, A4, A5, A7, A8, B0, B2, B4, B5, B7, B8.
  repeat split.
Qed.

(** X8: the exposure is not validated.  A NaN exposure, commanded or
    current, makes the test of line 157 succeed: the commanded value is
    stored as it is and the change flag is raised. *)
Theorem nan_exposure_is_a_change (c : commands.t) (p : camera_params.t) :
  commands.exposure c = S754_nan \/ camera_params.exposure_time p = S754_nan ->
  exposure_differs c p = true /\
  camera_params.exposure_time (merge_camera c p) = commands.exposure c /\
  camera_params.change_exposure_bool (merge_camera c p) = 1.
Proof.
  intro Hnan.
  assert (Hd : exposure_differs c p = true).
  { unfold exposure_differs, c_ne, SFeqb. destruct Hnan as [-> | ->]; cbn [ceil].
    - reflexivity.
    - now destruct (ceil (commands.exposure c)). }
  split; [exact Hd|]. unfold merge_camera. rewrite Hd.
  destruct (c_ne (commands.focus_pos c) (F_of_Z (-1))); split; reflexivity.
Qed.

End Sessions.

(** ** Packed layout *)

Lemma size_align_struct (pack : Z) (ms : list ctype) :
  size_align (Tstruct pack ms) = members_layout pack ms 0 1.
Proof. reflexivity. Qed.

Lemma members_layout_cons (pack : Z) (m : ctype) (ms : list ctype) (off al : Z) :
  members_layout pack (m :: ms) off al =
  members_layout pack ms (align_up off (Z.min pack (snd (size_align m))) + fst (size_align m))
                 (Z.max al (Z.min pack (snd (size_align m)))).
Proof. cbn [members_layout]. now destruct (size_align m). Qed.

(** The alignment of a struct is at least the one the layout starts from. *)
Lemma members_layout_align (pack : Z) (ms : list ctype) (off al : Z) :
  al <= snd (members_layout pack ms off al).
Proof.
  revert off al. induction ms as [|m ms IH]; intros off al.
  - cbn. lia.
  - rewrite members_layout_cons.
    etransitivity; [|apply IH]. lia.
Qed.

Lemma alignment_positive (t : ctype) : 1 <= snd (size_align t).
Proof.
  destruct t as [ | | | pack ms]; try (cbn; lia).
  rewrite size_align_struct. apply members_layout_align.
Qed.

Lemma align_up_one (off : Z) : align_up off 1 = off.
Proof. unfold align_up. rewrite Z.div_1_r. lia. Qed.

Lemma members_layout_packed (ms : list ctype) (off : Z) :
  members_layout 1 ms off 1 = (off + fold_right Z.add 0 (map sizeof ms), 1).
Proof.
  revert off. induction ms as [|m ms IH]; intro off.
  - cbn [members_layout map fold_right]. rewrite align_up_one. f_equal. lia.
  - rewrite members_layout_cons.
    replace (Z.min 1 (snd (size_align m))) with 1
      by (pose proof (alignment_positive m); lia).
    rewrite align_up_one, Z.max_id, IH. cbn [map fold_right]. unfold sizeof. f_equal. lia.
Qed.

(** X9: under [#pragma pack(1)] a struct has no padding, whatever its members
    are: its size is the sum of their sizes.  So the packet length is the sum
    of the three group sizes for any declaration of the groups. *)
Theorem packed_struct_has_no_padding (ms : list ctype) :
  sizeof (Tstruct 1 ms) = fold_right Z.add 0 (map sizeof ms).
Proof.
  unfold sizeof at 1. rewrite size_align_struct, members_layout_packed. reflexivity.
Qed.

(** ** [main] *)

Lemma start_through (r : startup) :
  start r = None ->
  0 <= socket_ret r /\ 0 <= bind_ret r /\ 0 <= listen_ret r /\ 0 <= setsockopt_ret r /\
  0 <= initCamera_ret r /\ 0 <= initLensAdapter_ret r /\ pthread_create_ret r = 0.
Proof.
  unfold start.
  destruct (Z.ltb_spec (socket_ret r) 0); [discriminate|].
  destruct (Z.ltb_spec (bind_ret r) 0); [discriminate|].
  destruct (Z.ltb_spec (listen_ret r) 0); [discriminate|].
  destruct (Z.ltb_spec (setsockopt_ret r) 0); [discriminate|].
  destruct (Z.ltb_spec (initCamera_ret r) 0); [discriminate|].
  destruct (Z.ltb_spec (initLensAdapter_ret r) 0); [discriminate|].
  destruct (Z.eqb_spec (pthread_create_ret r) 0); [|discriminate].
  intros _. repeat split; assumption.
Qed.

(** X10: no session is started unless the whole start-up went through: the
    socket calls, the camera, the lens adapter and the solve thread. *)
Theorem sessions_need_full_startup (r : startup) (turns : list turn) (sock : Z) :
  In sock (started (main r turns)) ->
  0 <= socket_ret r /\ 0 <= bind_ret r /\ 0 <= listen_ret r /\ 0 <= setsockopt_ret r /\
  0 <= initCamera_ret r /\ 0 <= initLensAdapter_ret r /\ pthread_create_ret r = 0.
Proof.
  unfold main. destruct (start r) as [e|] eqn:Hs.
  - cbn [started]. intros [].
  - intros _. now apply start_through.
Qed.

(** X11: [pthread_create] returns 0 or a positive error number, and line 340
    tests for a negative one: a session thread that could not be created is
    never reported. *)
Theorem thread_failure_never_reported (r : startup) (turns : list turn) :
  Forall (fun t => 0 <= thread_ret t) turns ->
  reported (main r turns) = [].
Proof.
  intro Hpos. unfold main. destruct (start r) as [e|]; [reflexivity|].
  induction Hpos as [|t turns Ht _ IH]; cbn [accept_loop]; [reflexivity|].
  destruct (accept_ret t =? 0); [reflexivity|].
  destruct (accept_ret t =? -1); [exact IH|].
  cbn [reported]. rewrite IH.
  destruct (Z.ltb_spec (thread_ret t) 0); [lia|reflexivity].
Qed.

(** The turns that start a session: [accept] gave a socket and the thread
    was created. *)
Lemma accept_loop_started (turns : list turn) :
  Forall (fun t => accept_ret t <> 0) turns ->
  started (accept_loop turns) =
    map accept_ret
        (filter (fun t => negb (accept_ret t =? -1) && (thread_ret t =? 0)) turns) /\
  ended (accept_loop turns) = None.
Proof.
  induction 1 as [|t turns Ht _ [IHs IHe]]; cbn [accept_loop filter map].
  - split; reflexivity.
  - destruct (Z.eqb_spec (accept_ret t) 0) as [E|_]; [contradiction|].
    destruct (accept_ret t =? -1); cbn [negb andb].
    + split; assumption.
    + cbn [started ended]. destruct (thread_ret t =? 0); cbn [map]; rewrite IHs; now split.
Qed.

(** X12: the accept loop.  A failed or timed-out [accept] (-1) starts no
    session and does not stop the server; the sessions are, in order, the
    sockets accepted whose thread was created; the loop is left, and [main]
    returns 1, only when [accept] returns 0, and no later connection is
    served. *)
Theorem accept_loop_serves (before after : list turn) (x : Z) :
  Forall (fun t => accept_ret t <> 0) before ->
  let sessions :=
    map accept_ret
        (filter (fun t => negb (accept_ret t =? -1) && (thread_ret t =? 0)) before) in
  started (accept_loop before) = sessions /\
  ended (accept_loop before) = None /\
  started (accept_loop (before ++ mkTurn 0 x :: after)) = sessions /\
  ended (accept_loop (before ++ mkTurn 0 x :: after)) = Some (Return 1).
Proof.
  intros Hnz sessions. destruct (accept_loop_started before Hnz) as [Hs He].
  split; [exact Hs|]. split; [exact He|]. subst sessions. clear Hs He.
  induction Hnz as [|t before Ht _ [IHs IHe]]; cbn [app accept_loop filter map].
  - split; reflexivity.
  - destruct (Z.eqb_spec (accept_ret t) 0) as [E|_]; [contradiction|].
    destruct (accept_ret t =? -1); cbn [negb andb].
    + split; assumption.
    + cbn [started ended]. destruct (thread_ret t =? 0); cbn [map]; rewrite IHs; now split.
Qed.

(** ** Index selection and the solver between calls *)

(** [x >= y] excludes [x < y]. *)
Lemma c_ge_not_lt (x y : spec_float) : c_ge x y = true -> c_lt x y = false.
Proof.
  unfold c_ge, c_lt, SFleb, SFltb.
  destruct x as [sx | sx | | sx mx ex], y as [sy | sy | | sy my ey]; cbn;
    try destruct sx; try destruct sy; try (intros; congruence); try reflexivity.
  all: rewrite (Z.compare_antisym ey ex); destruct (ey ?= ex); cbn; try congruence.
  all: change (PosDef.Pos.compare_cont Eq mx my) with (Pos.compare mx my);
    change (PosDef.Pos.compare_cont Eq my mx) with (Pos.compare my mx);
    rewrite (Pos.compare_antisym my mx); destruct (Pos.compare my mx); cbn; congruence.
Qed.

Section Selected.
Context `{AstrometryNet} `{Sofa} `{LibM}.

(** The loop of lines 135-145 keeps the order of the engine's indexes and
    adds the ones that pass the test. *)
Lemma add_indexes_filter (ra dec : double) (engine added : list index_t) :
  add_indexes ra dec engine added = added ++ filter (selects ra dec) engine.
Proof.
  unfold add_indexes. revert added.
  induction engine as [|i engine IH]; intro added; cbn [fold_left filter].
  - now rewrite app_nil_r.
  - rewrite IH. unfold add_if_close, selects.
    destruct (c_ge ra (D_of_Z (-180)) && c_ge dec (D_of_Z (-90)) &&
              index_is_within_range i ra dec (dist2deg hprange)); cbn [orb].
    + now rewrite <- app_assoc.
    + destruct (c_lt ra (D_of_Z (-180)) || c_lt dec (D_of_Z (-90))).
      * now rewrite <- app_assoc.
      * reflexivity.
Qed.

Lemma filter_ext_all {A : Type} (f g : A -> bool) (l : list A) :
  (forall x, f x = g x) -> filter f l = filter g l.
Proof. intro E. induction l as [|x l IH]; cbn; [reflexivity|]. now rewrite E, IH. Qed.

Lemma filter_all {A : Type} (l : list A) : filter (fun _ => true) l = l.
Proof. induction l as [|x l IH]; cbn; [reflexivity|]. now rewrite IH. Qed.

Lemma filter_none {A : Type} (l : list A) : filter (fun _ => false) l = [].
Proof. induction l as [|x l IH]; cbn; [reflexivity|]. exact IH. Qed.

(** X13: when the locals [ra] and [dec] hold a position (at least -180 and
    -90) as the loop starts, the solver gets, after the indexes it already
    had and in the engine's order, exactly the indexes within [hprange] of
    that position. *)
Theorem position_selects_close_indexes (star_x star_y star_mags : list double)
  (num_blobs : Z) (env : call_env) (w : world) :
  c_ge (ra_at_entry env) (D_of_Z (-180)) = true ->
  c_ge (dec_at_entry env) (D_of_Z (-90)) = true ->
  indexes (configured_solver star_x star_y star_mags num_blobs env w) =
  indexes (solver w) ++
  filter (fun i => index_is_within_range i (ra_at_entry env) (dec_at_entry env)
                                         (dist2deg hprange))
         (engine_indexes w).
Proof.
  intros Hra Hdec. cbn [configured_solver indexes]. rewrite add_indexes_filter.
  f_equal. apply filter_ext_all. intro i. unfold selects.
  rewrite Hra, Hdec, (c_ge_not_lt _ _ Hra), (c_ge_not_lt _ _ Hdec).
  cbn [andb orb]. apply orb_false_r.
Qed.

(** X14: when [ra] is below -180 or [dec] below -90 as the loop starts, every
    index of the engine is given to the solver, in the engine's order. *)
Theorem sentinel_selects_every_index (star_x star_y star_mags : list double)
  (num_blobs : Z) (env : call_env) (w : world) :
  c_lt (ra_at_entry env) (D_of_Z (-180)) = true \/
  c_lt (dec_at_entry env) (D_of_Z (-90)) = true ->
  indexes (configured_solver star_x star_y star_mags num_blobs env w) =
  indexes (solver w) ++ engine_indexes w.
Proof.
  intro Hlow. cbn [configured_solver indexes]. rewrite add_indexes_filter.
  f_equal. rewrite <- (filter_all (engine_indexes w)) at 2.
  apply filter_ext_all. intro i. unfold selects.
  destruct Hlow as [-> | ->]; cbn [orb]; now rewrite ?orb_true_r.
Qed.

(** X15: a NaN in [ra] or [dec] fails both tests of the loop.  Unless the
    other coordinate is below its sentinel, no index at all is given to the
    solver. *)
Theorem nan_selects_no_index (star_x star_y star_mags : list double)
  (num_blobs : Z) (env : call_env) (w : world) :
  (ra_at_entry env = S754_nan /\ c_lt (dec_at_entry env) (D_of_Z (-90)) = false) \/
  (dec_at_entry env = S754_nan /\ c_lt (ra_at_entry env) (D_of_Z (-180)) = false) ->
  indexes (configured_solver star_x star_y star_mags num_blobs env w) = indexes (solver w).
Proof.
  intro Hnan. cbn [configured_solver indexes]. rewrite add_indexes_filter.
  rewrite <- (app_nil_r (indexes (solver w))) at 2. f_equal.
  rewrite <- (filter_none (engine_indexes w)).
  apply filter_ext_all. intro i. unfold selects.
  destruct Hnan as [[-> Hd] | [-> Hr]].
  - rewrite Hd. reflexivity.
  - rewrite Hr. cbn [orb].
    replace (c_ge S754_nan (D_of_Z (-90))) with false by reflexivity.
    now rewrite andb_false_r.
Qed.

End Selected.

Section Between.
Context `{AstrometryNet} `{Sofa} `{LibM}.

(** The call does not return only when a match was found and the data file
    could not be opened. *)
Lemma lostInSpace_crashed (star_x star_y star_mags : list double) (num_blobs : Z)
  (tm_info : tm) (datafile : string) (env : call_env) (w : world) :
  lostInSpace star_x star_y star_mags num_blobs tm_info datafile env w = Crashed ->
  fst (solver_run (configured_solver star_x star_y star_mags num_blobs env w)) = true /\
  datafile_opens env = false.
Proof.
  intro Hr.
  destruct (fst (solver_run (configured_solver star_x star_y star_mags num_blobs env w)))
    eqn:Hs.
  - destruct (datafile_opens env) eqn:Ho; [|now split].
    rewrite (lostInSpace_solved _ _ _ _ tm_info datafile _ _ Hs Ho) in Hr. discriminate Hr.
  - rewrite (lostInSpace_unsolved _ _ _ _ tm_info datafile _ _ Hs) in Hr. discriminate Hr.
Qed.

(** X16: [lostInSpace] cleans the solver on both ways out.  After any call
    that returns, match or not, the solver holds no index and no field,
    whatever it held before, so the next call searches only the indexes its
    own loop selects.  The one call that does not return is the call that
    found a match and could not open the data file. *)
Theorem solver_is_cleared_between_calls (star_x star_y star_mags : list double)
  (num_blobs : Z) (tm_info : tm) (datafile : string) (env : call_env) (w : world)
  (next_x next_y next_mags : list double) (next_blobs : Z) (next_env : call_env) :
  match lostInSpace star_x star_y star_mags num_blobs tm_info datafile env w with
  | Returned (st, w1) =>
      indexes (solver w1) = [] /\
      fieldxy (solver w1) = None /\
      indexes (configured_solver next_x next_y next_mags next_blobs next_env w1) =
        filter (selects (ra_at_entry next_env) (dec_at_entry next_env)) (engine_indexes w)
  | Crashed =>
      fst (solver_run (configured_solver star_x star_y star_mags num_blobs env w)) = true /\
      datafile_opens env = false
  end.
Proof.
  destruct (lostInSpace star_x star_y star_mags num_blobs tm_info datafile env w)
    as [|[st w1]] eqn:Hr.
  - exact (lostInSpace_crashed _ _ _ _ _ _ _ _ Hr).
  - destruct (lostInSpace_returned _ _ _ _ _ _ _ _ _ _ Hr)
      as [(_ & _ & Hw) | (_ & _ & _ & Hw)]; cbv zeta in Hw; subst w1;
      cbn [solver engine_indexes cleaned_up indexes fieldxy configured_solver];
      rewrite add_indexes_filter; repeat split.
Qed.

(** X17: what [lostInSpace] never writes in a call that returns, match or
    not and whether or not the write goes through: the indexes of the
    engine, the camera and blob groups, the capture time and the observer
    fields of [all_astro_params], and every file but the data file.  The one
    call that does not return is the call that found a match and could not
    open the data file. *)
Theorem lostInSpace_keeps_requests (star_x star_y star_mags : list double)
  (num_blobs : Z) (tm_info : tm) (datafile : string) (env : call_env) (w : world) :
  match lostInSpace star_x star_y star_mags num_blobs tm_info datafile env w with
  | Returned (st, w') =>
      let a := all_astro_params (state w) in
      let a' := all_astro_params (state w') in
      engine_indexes w' = engine_indexes w /\
      all_camera_params (state w') = all_camera_params (state w) /\
      all_blob_params (state w') = all_blob_params (state w) /\
      astrometry.rawtime a' = astrometry.rawtime a /\
      astrometry.logodds a' = astrometry.logodds a /\
      astrometry.latitude a' = astrometry.latitude a /\
      astrometry.longitude a' = astrometry.longitude a /\
      astrometry.hm a' = astrometry.hm a /\
      forall f : string, f <> datafile -> files w' f = files w f
  | Crashed =>
      fst (solver_run (configured_solver star_x star_y star_mags num_blobs env w)) = true /\
      datafile_opens env = false
  end.
Proof.
  destruct (lostInSpace star_x star_y star_mags num_blobs tm_info datafile env w)
    as [|[st w']] eqn:Hr.
  - exact (lostInSpace_crashed _ _ _ _ _ _ _ _ Hr).
  - cbv zeta.
    destruct (lostInSpace_returned _ _ _ _ _ _ _ _ _ _ Hr)
      as [(_ & _ & Hw) | (_ & _ & _ & Hw)]; cbv zeta in Hw; subst w'.
    + cbn [state engine_indexes files]. repeat split.
    + cbn [state engine_indexes files with_astro all_astro_params all_camera_params
           all_blob_params].
      repeat split. intros f Hf. now apply append_to_other.
Qed.

(** What one call whose write goes through adds to the data file, counted
    in separators and in line terminators. *)
Lemma lostInSpace_log_counts (star_x star_y star_mags : list double)
  (num_blobs : Z) (tm_info : tm) (datafile : string) (env : call_env) (w w' : world)
  (st : Z) :
  write_cut env = None ->
  lostInSpace star_x star_y star_mags num_blobs tm_info datafile env w = Returned (st, w') ->
  (st = 0 \/ st = 1) /\
  count_char "|" (files w' datafile) =
    (count_char "|" (files w datafile) + (if Z.eqb st 1 then 8 else 0))%nat /\
  count_lines (files w' datafile) = count_lines (files w datafile).
Proof.
  intros Hcut Hr.
  destruct (lostInSpace_returned _ _ _ _ _ _ _ _ _ _ Hr)
    as [(-> & _ & Hw) | (-> & _ & _ & Hw)]; cbv zeta in Hw; subst w'.
  - cbn [files]. split; [now left|]. split; [|reflexivity].
    cbn. now rewrite Nat.add_0_r.
  - cbn [files]. rewrite append_to_same. unfold written. rewrite Hcut.
    match goal with
    | |- context [log_record ?n ?a ?e] =>
        destruct (log_record_shape n a e) as [Hbars Hlines]
    end.
    unfold count_lines in *. rewrite !count_char_app, Hbars, Hlines.
    split; [now right|]. split; [reflexivity|]. apply Nat.add_0_r.
Qed.

(** X18: a run of solves on one data file in which every call finds the file
    openable and every write goes through returns, and the log then holds
    eight more separators, nine fields, for each solve that returned 1 and
    nothing for the others; no solve adds a line terminator: the records of
    a run all stand on the line the file ended with. *)
Theorem log_counts_the_solves (calls : list solve_call) (datafile : string) (w : world) :
  Forall (fun c => datafile_opens (call_around c) = true /\
                   write_cut (call_around c) = None) calls ->
  exists (sts : list Z) (w' : world),
    solve_all calls datafile w = Returned (sts, w') /\
    List.length sts = List.length calls /\
    Forall (fun st => st = 0 \/ st = 1) sts /\
    count_char "|" (files w' datafile) =
      (count_char "|" (files w datafile) + 8 * List.length (filter (Z.eqb 1) sts))%nat /\
    count_lines (files w' datafile) = count_lines (files w datafile).
Proof.
  intro Hok. revert w. induction Hok as [|c calls [Ho Hcut] _ IH]; intro w; cbn [solve_all].
  - exists [], w. cbn. repeat split; [constructor | lia].
  - destruct (lostInSpace (call_x c) (call_y c) (call_mags c) (call_blobs c) (call_tm c)
                datafile (call_around c) w) as [|[st w1]] eqn:Hr.
    + destruct (fst (solver_run (configured_solver (call_x c) (call_y c) (call_mags c)
                                   (call_blobs c) (call_around c) w))) eqn:Hs.
      * rewrite (lostInSpace_solved _ _ _ _ (call_tm c) datafile _ _ Hs Ho) in Hr.
        discriminate Hr.
      * rewrite (lostInSpace_unsolved _ _ _ _ (call_tm c) datafile _ _ Hs) in Hr.
        discriminate Hr.
    + destruct (lostInSpace_log_counts _ _ _ _ _ _ _ _ _ _ Hcut Hr) as (Hst & Hbars & Hlines).
      destruct (IH w1) as (sts & w' & Hrun & Hlen & Hall & Hb & Hl).
      rewrite Hrun. exists (st :: sts), w'.
      split; [reflexivity|].
      split; [cbn [List.length]; now rewrite Hlen|].
      split; [now constructor|].
      split; [|now rewrite Hl].
      rewrite Hb, Hbars. cbn [filter].
      destruct Hst as [-> | ->]; cbn [Z.eqb Pos.eqb List.length]; lia.
Qed.

(** X20: a write that fails is not noticed by the caller.  A solve that
    finds a match and opens the data file returns 1 and has written
    [all_astro_params] even when only the first [k] characters of the record,
    or none, reach the file; the file then ends with those characters and
    nothing else of it has changed. *)
Theorem failed_write_still_returns_one (star_x star_y star_mags : list double)
  (num_blobs : Z) (tm_info : tm) (datafile : string) (env : call_env) (w : world) (k : nat) :
  fst (solver_run (configured_solver star_x star_y star_mags num_blobs env w)) = true ->
  datafile_opens env = true ->
  write_cut env = Some k ->
  exists w' : world,
    lostInSpace star_x star_y star_mags num_blobs tm_info datafile env w = Returned (1, w') /\
    files w' datafile =
      (files w datafile ++
       substring 0 k (log_record num_blobs (all_astro_params (state w')) env))%string /\
    (k = O -> files w' datafile = files w datafile) /\
    all_astro_params (state w') =
      (let r := reduce (snd (solver_run (configured_solver star_x star_y star_mags
                                            num_blobs env w))) tm_info w in
       update_astro (fst r) (fst (fst (snd r))) (snd (fst (snd r))) (snd (snd r))
                    (all_astro_params (state w))).
Proof.
  intros Hs Ho Hcut. eexists.
  rewrite (lostInSpace_solved _ _ _ _ tm_info datafile _ _ Hs Ho).
  split; [reflexivity|]. cbn [state files with_astro all_astro_params].
  rewrite append_to_same. unfold written. rewrite Hcut.
  split; [reflexivity|]. split; [|reflexivity].
  intros ->.
  match goal with
  | |- context [substring 0 0 ?t] =>
      replace (substring 0 0 t) with EmptyString by (now destruct t)
  end.
  clear. induction (files w datafile) as [|c f IH]; cbn; [reflexivity|now rewrite IH].
Qed.

(** X21: the stream is used unchecked.  A solve that finds a match while the
    data file cannot be opened does not return: the null stream goes to
    [fprintf]. *)
Theorem unopenable_data_file_is_fatal (star_x star_y star_mags : list double)
  (num_blobs : Z) (tm_info : tm) (datafile : string) (env : call_env) (w : world) :
  fst (solver_run (configured_solver star_x star_y star_mags num_blobs env w)) = true ->
  datafile_opens env = false ->
  lostInSpace star_x star_y star_mags num_blobs tm_info datafile env w = Crashed /\
  forall rest : list solve_call,
    solve_all (mkCall star_x star_y star_mags num_blobs tm_info env :: rest) datafile w =
    Crashed.
Proof.
  intros Hs Ho.
  pose proof (lostInSpace_no_stream _ _ _ _ tm_info datafile _ _ Hs Ho) as Hc.
  split; [exact Hc|]. intro rest. cbn [solve_all call_x call_y call_mags call_blobs call_tm
                                        call_around].
  now rewrite Hc.
Qed.

End Between.

(** ** The properties at sample inputs *)

(** X1, at a cycle in which a full command arrives, starting from an
    [all_data] left from an earlier state. *)
Lemma command_cycle_shows_command :
  let s' := @applyCommand Standin.lens Sample.cmd_full Standin.store0 in
  let shown := telemetry.mk (all_astro_params s') (all_camera_params s') (all_blob_params s') in
  exists wire st,
    @processClient_cycle Standin.lens Sample.command_cycle Sample.globals_stale =
      Some (mkGlobals s' Sample.cmd_full shown 0, wire, st) /\
    astrometry.logodds (telemetry.astrom shown) = D_of_Z 1000 /\
    blob_params.spike_limit (telemetry.current_blob_params shown) = 4 /\
    wire = (bytes_of_astrometry (all_astro_params s') ++
            bytes_of_camera_params (all_camera_params s') ++
            bytes_of_blob_params (all_blob_params s')) ++
           read_bytes (camera_raw Sample.command_cycle) (CAMERA_WIDTH * CAMERA_HEIGHT) /\
    st = Open /\
    firstn 8 (skipn 8 wire) = bytes_of_double (D_of_Z 1000).
Proof.
  pose proof (@command_then_snapshot Standin.lens Sample.command_cycle Sample.globals_stale)
    as T.
  cbv zeta in T. cbv zeta.
  destruct T as (wire & st & Hc & Hlo & _ & _ & _ & _ & _ & Hsend).
  - discriminate.
  - reflexivity.
  - exists wire, st. split; [exact Hc|]. split; [exact Hlo|].
    split; [reflexivity|].
    destruct (Hsend eq_refl eq_refl) as (Hw & Hst & Hbytes).
    split; [exact Hw|]. split; [exact Hst | exact Hbytes].
Defined.

(** The packet of that cycle, the commanded values in it. *)
Example packet_after_full_command :
  let s' := @applyCommand Standin.lens Sample.cmd_full Standin.store0 in
  let packet := bytes_of_astrometry (all_astro_params s') ++
                bytes_of_camera_params (all_camera_params s') ++
                bytes_of_blob_params (all_blob_params s') in
  map (fun b => Z.of_N (Byte.to_N b)) (firstn 8 (skipn 8 packet)) = [0; 0; 0; 0; 0; 64; 143; 64] /\
  map (fun b => Z.of_N (Byte.to_N b)) (firstn 4 (skipn 140 packet)) = [4; 0; 0; 0].
Proof. vm_compute. split; reflexivity. Qed.

(** X2, at a cycle in which [recvfrom] returns 0 and the send fails: the
    command left in [all_cmds] is merged once more. *)
Lemma hangup_cycle_merges :
  let s' := @applyCommand Standin.lens Standin.cmd_spike Standin.store0 in
  let g' := mkGlobals s' Standin.cmd_spike (snapshot s') 0 in
  @processClient_cycle Standin.lens Sample.hangup_cycle Standin.globals0 = Some (g', [], Closed) /\
  @processClient Standin.lens [Sample.hangup_cycle; Sample.command_cycle] Standin.globals0 =
    Some (g', [], Closed).
Proof.
  apply (@command_kept_though_peer_gone Standin.lens Sample.hangup_cycle Standin.globals0
           [Sample.command_cycle]).
  - discriminate.
  - reflexivity.
  - discriminate.
Defined.

(** X3, at two cycles without a command, the second with a short send. *)
Lemma two_silent_cycles :
  exists g' wire st,
    @processClient Standin.lens [Standin.quiet_cycle; Sample.short_cycle] Standin.globals0 =
      Some (g', wire, st) /\
    store g' = Standin.store0 /\ all_cmds g' = Standin.cmd_spike /\ command_lock g' = 0.
Proof.
  apply (@silent_client_changes_nothing Standin.lens
           [Standin.quiet_cycle; Sample.short_cycle] Standin.globals0).
  repeat constructor.
Defined.

(** X4, at a cycle whose first send stops after 100 bytes. *)
Lemma short_cycle_loses_framing :
  let t := transmit Sample.short_cycle Standin.globals0 in
  let head := firstn 100 (bytes_of_telemetry (all_data (fst (fst t)))) in
  snd t = Open /\
  snd (fst t) =
    head ++ sent (read_bytes (camera_raw Sample.short_cycle) (CAMERA_WIDTH * CAMERA_HEIGHT))
                 (CAMERA_WIDTH * CAMERA_HEIGHT) /\
  Z.of_nat (List.length head) = 100.
Proof.
  apply (@short_send_not_retried Standin.lens Sample.short_cycle Standin.globals0
           (fst (fst (transmit Sample.short_cycle Standin.globals0)))
           (snd (fst (transmit Sample.short_cycle Standin.globals0)))
           (snd (transmit Sample.short_cycle Standin.globals0))).
  - unfold processClient_cycle.
    rewrite (@receive_failed Standin.lens Sample.short_cycle Standin.globals0 eq_refl).
    destruct (transmit Sample.short_cycle Standin.globals0) as [[g' wire] st].
    reflexivity.
  - split; reflexivity.
  - reflexivity.
Defined.

(** X8, at a command with a NaN exposure. *)
Lemma nan_exposure_is_stored :
  exposure_differs Sample.cmd_nan Standin.camera0 = true /\
  camera_params.exposure_time (merge_camera Sample.cmd_nan Standin.camera0) = S754_nan /\
  camera_params.change_exposure_bool (merge_camera Sample.cmd_nan Standin.camera0) = 1.
Proof.
  apply (nan_exposure_is_a_change Sample.cmd_nan Standin.camera0).
  left. reflexivity.
Defined.

(** X10, at a start-up that goes through and a client on socket 5. *)
Lemma client_five_after_startup :
  In 5 (started (main Sample.good_start Sample.turns)) /\
  0 <= socket_ret Sample.good_start /\ 0 <= bind_ret Sample.good_start /\
  0 <= listen_ret Sample.good_start /\ 0 <= setsockopt_ret Sample.good_start /\
  0 <= initCamera_ret Sample.good_start /\ 0 <= initLensAdapter_ret Sample.good_start /\
  pthread_create_ret Sample.good_start = 0.
Proof.
  assert (Hin : In 5 (started (main Sample.good_start Sample.turns))) by (left; reflexivity).
  split; [exact Hin|].
  exact (sessions_need_full_startup Sample.good_start Sample.turns 5 Hin).
Defined.

(** X11, at turns in which the thread for socket 6 fails with EAGAIN. *)
Lemma eagain_is_not_reported :
  reported (main Sample.good_start Sample.turns) = [].
Proof.
  apply (thread_failure_never_reported Sample.good_start Sample.turns).
  repeat constructor; discriminate.
Defined.

(** X12, at the same turns, then [accept] returning 0. *)
Lemma turns_serve_socket_five :
  started (accept_loop Sample.turns) = [5] /\
  ended (accept_loop Sample.turns) = None /\
  started (accept_loop (Sample.turns ++ mkTurn 0 0 :: [mkTurn 7 0])) = [5] /\
  ended (accept_loop (Sample.turns ++ mkTurn 0 0 :: [mkTurn 7 0])) = Some (Return 1).
Proof.
  apply (accept_loop_serves Sample.turns [mkTurn 7 0] 0).
  repeat constructor; discriminate.
Defined.

(** X13, with the locals at (0, 0): only the partition around the origin. *)
Lemma origin_selects_origin_index :
  indexes (@configured_solver Standin.types Standin.net Standin.libm
             Standin.stars Standin.stars Standin.stars 3 Sample.env_origin Standin.world0) =
  [] ++ filter (fun i => @index_is_within_range Standin.types Standin.net i
                           Standin.zero Standin.zero
                           (@dist2deg Standin.types Standin.net
                              (@hprange Standin.types Standin.net Standin.libm)))
               [Standin.index_origin; Standin.index_far].
Proof.
  apply (@position_selects_close_indexes Standin.types Standin.net Standin.libm
           Standin.stars Standin.stars Standin.stars 3 Sample.env_origin Standin.world0);
    reflexivity.
Defined.

(** X14, with -1000 in [ra]. *)
Lemma low_ra_selects_both :
  indexes (@configured_solver Standin.types Standin.net Standin.libm
             Standin.stars Standin.stars Standin.stars 3 Standin.env_low Standin.world0) =
  [] ++ [Standin.index_origin; Standin.index_far].
Proof.
  apply (@sentinel_selects_every_index Standin.types Standin.net Standin.libm
           Standin.stars Standin.stars Standin.stars 3 Standin.env_low Standin.world0).
  left. reflexivity.
Defined.

(** X15, with a NaN in [ra]. *)
Lemma nan_ra_selects_nothing :
  indexes (@configured_solver Standin.types Standin.net Standin.libm
             Standin.stars Standin.stars Standin.stars 3 Sample.env_nan Standin.world0) = [].
Proof.
  apply (@nan_selects_no_index Standin.types Standin.net Standin.libm
           Standin.stars Standin.stars Standin.stars 3 Sample.env_nan Standin.world0).
  left. split; reflexivity.
Defined.

(** X16, at the solve of three stars, then a call with the locals at the
    origin. *)
Lemma cleared_after_three_stars :
  exists w1 : world,
    @lostInSpace Standin.types Standin.net Standin.sofa Standin.libm
      Standin.stars Standin.stars Standin.stars 3 Standin.noon Standin.datafile
      Standin.env_low Standin.world0 = Returned (1, w1) /\
    indexes (solver w1) = [] /\
    fieldxy (solver w1) = None /\
    indexes (@configured_solver Standin.types Standin.net Standin.libm
               Standin.stars Standin.stars Standin.stars 3 Sample.env_origin w1) =
      filter (@selects Standin.types Standin.net Standin.libm Standin.zero Standin.zero)
             [Standin.index_origin; Standin.index_far].
Proof.
  destruct three_stars_returns as [w1 Hr]. exists w1. split; [exact Hr|].
  pose proof (@solver_is_cleared_between_calls Standin.types Standin.net Standin.sofa
                Standin.libm Standin.stars Standin.stars Standin.stars 3 Standin.noon
                Standin.datafile Standin.env_low Standin.world0
                Standin.stars Standin.stars Standin.stars 3 Sample.env_origin) as T.
  rewrite Hr in T. exact T.
Defined.

(** X17, at the same solve. *)
Lemma requests_kept_after_three_stars :
  exists w' : world,
    @lostInSpace Standin.types Standin.net Standin.sofa Standin.libm
      Standin.stars Standin.stars Standin.stars 3 Standin.noon Standin.datafile
      Standin.env_low Standin.world0 = Returned (1, w') /\
    engine_indexes w' = [Standin.index_origin; Standin.index_far] /\
    all_camera_params (state w') = Standin.camera0 /\
    all_blob_params (state w') = Standin.blob0 /\
    astrometry.rawtime (all_astro_params (state w')) = astrometry.rawtime Standin.astro0 /\
    astrometry.logodds (all_astro_params (state w')) = astrometry.logodds Standin.astro0 /\
    astrometry.latitude (all_astro_params (state w')) = astrometry.latitude Standin.astro0 /\
    astrometry.longitude (all_astro_params (state w')) = astrometry.longitude Standin.astro0 /\
    astrometry.hm (all_astro_params (state w')) = astrometry.hm Standin.astro0 /\
    forall f : string, f <> Standin.datafile -> files w' f = files Standin.world0 f.
Proof.
  destruct three_stars_returns as [w' Hr]. exists w'. split; [exact Hr|].
  pose proof (@lostInSpace_keeps_requests Standin.types Standin.net Standin.sofa
                Standin.libm Standin.stars Standin.stars Standin.stars 3 Standin.noon
                Standin.datafile Standin.env_low Standin.world0) as T.
  rewrite Hr in T. exact T.
Defined.

(** X18, at a run of three solves, the second without stars. *)
Lemma run_of_three_counts :
  exists (sts : list Z) (w' : world),
    @solve_all Standin.types Standin.net Standin.sofa Standin.libm
      [Sample.call_stars; Sample.call_empty; Sample.call_stars]
      Standin.datafile Standin.world0 = Returned (sts, w') /\
    List.length sts = 3%nat /\
    Forall (fun st => st = 0 \/ st = 1) sts /\
    count_char "|" (files w' Standin.datafile) =
      (count_char "|" (files Standin.world0 Standin.datafile) +
       8 * List.length (filter (Z.eqb 1) sts))%nat /\
    count_lines (files w' Standin.datafile) =
      count_lines (files Standin.world0 Standin.datafile).
Proof.
  apply (@log_counts_the_solves Standin.types Standin.net Standin.sofa Standin.libm
           [Sample.call_stars; Sample.call_empty; Sample.call_stars]
           Standin.datafile Standin.world0).
  repeat constructor.
Defined.

(** The run of three solves: two records, one line. *)
Example run_of_three :
  exists w' : world,
    @solve_all Standin.types Standin.net Standin.sofa Standin.libm
      [Sample.call_stars; Sample.call_empty; Sample.call_stars]
      Standin.datafile Standin.world0 = Returned ([1; 0; 1], w') /\
    count_char "|" (files w' Standin.datafile) = 16%nat /\
    count_lines (files w' Standin.datafile) = O.
Proof.
  eexists. split; [vm_compute; reflexivity|]. vm_compute. split; reflexivity.
Qed.

(** X20, at a solve whose write stops after 10 characters. *)
Lemma cut_write_returns_one :
  exists w' : world,
    @lostInSpace Standin.types Standin.net Standin.sofa Standin.libm
      Standin.stars Standin.stars Standin.stars 3 Standin.noon Standin.datafile
      Sample.env_cut Standin.world0 = Returned (1, w') /\
    files w' Standin.datafile =
      (files Standin.world0 Standin.datafile ++
       substring 0 10 (log_record 3 (all_astro_params (state w')) Sample.env_cut))%string /\
    (10%nat = O -> files w' Standin.datafile = files Standin.world0 Standin.datafile) /\
    all_astro_params (state w') =
      (let r := @reduce Standin.types Standin.net Standin.sofa
                  (snd (@solver_run Standin.types Standin.net
                          (@configured_solver Standin.types Standin.net Standin.libm
                             Standin.stars Standin.stars Standin.stars 3 Sample.env_cut
                             Standin.world0))) Standin.noon Standin.world0 in
       update_astro (fst r) (fst (fst (snd r))) (snd (fst (snd r))) (snd (snd r))
                    (all_astro_params (state Standin.world0))).
Proof.
  apply (@failed_write_still_returns_one Standin.types Standin.net Standin.sofa Standin.libm
           Standin.stars Standin.stars Standin.stars 3 Standin.noon Standin.datafile
           Sample.env_cut Standin.world0 10%nat); reflexivity.
Defined.

(** The file after that solve: the first ten characters of the record. *)
Example cut_write_leaves_ten :
  exists w' : world,
    @lostInSpace Standin.types Standin.net Standin.sofa Standin.libm
      Standin.stars Standin.stars Standin.stars 3 Standin.noon Standin.datafile
      Sample.env_cut Standin.world0 = Returned (1, w') /\
    files w' Standin.datafile = "3|57.29578"%string.
Proof.
  eexists. split; [vm_compute; reflexivity|]. vm_compute. reflexivity.
Qed.

(** X21, at a solve whose data file cannot be opened. *)
Lemma unopenable_file_stops_the_run :
  @lostInSpace Standin.types Standin.net Standin.sofa Standin.libm
    Standin.stars Standin.stars Standin.stars 3 Standin.noon Standin.datafile
    Sample.env_unopenable Standin.world0 = Crashed /\
  forall rest : list solve_call,
    @solve_all Standin.types Standin.net Standin.sofa Standin.libm
      (mkCall Standin.stars Standin.stars Standin.stars 3 Standin.noon Sample.env_unopenable
         :: rest) Standin.datafile Standin.world0 = Crashed.
Proof.
  apply (@unopenable_data_file_is_fatal Standin.types Standin.net Standin.sofa Standin.libm
           Standin.stars Standin.stars Standin.stars 3 Standin.noon Standin.datafile
           Sample.env_unopenable Standin.world0); reflexivity.
Defined.

(** The receive time-out of lines 299-300 is 2 seconds. *)
Example read_timeout_seconds : read_timeout = (Some 2, 0).
Proof. reflexivity. Qed.

(** ** The flag is never left set *)

Lemma set_nth_same_kind (f : Gate.place -> bool) (l : list Gate.place) (t : nat)
  (p p' : Gate.place) :
  nth_error l t = Some p -> f p' = f p ->
  existsb f (Gate.set_nth t p' l) = existsb f l.
Proof.
  revert t. induction l as [|q l IH]; intros [|t] Hn Hf; cbn in *; try discriminate.
  - injection Hn as ->. now rewrite Hf.
  - now rewrite (IH t Hn Hf).
Qed.

Lemma set_nth_holds (f : Gate.place -> bool) (l : list Gate.place) (t : nat)
  (p p' : Gate.place) :
  nth_error l t = Some p -> f p' = true ->
  existsb f (Gate.set_nth t p' l) = true.
Proof.
  revert t. induction l as [|q l IH]; intros [|t] Hn Hf; cbn in *; try discriminate.
  - now rewrite Hf.
  - rewrite (IH t Hn Hf). apply orb_true_r.
Qed.

(** One step keeps: the flag is 0, or it is 1 and a thread is between its
    two writes. *)
Lemma step_keeps_holder (c : Gate.config) (t : nat) (io : Gate.peer) :
  Gate.command_lock c = 0 \/
  (Gate.command_lock c = 1 /\ existsb holds_flag (Gate.threads c) = true) ->
  Gate.command_lock (Gate.step c t io) = 0 \/
  (Gate.command_lock (Gate.step c t io) = 1 /\
   existsb holds_flag (Gate.threads (Gate.step c t io)) = true).
Proof.
  intro Hinv. unfold Gate.step.
  destruct (nth_error (Gate.threads c) t) as [p|] eqn:Hn; [|exact Hinv].
  destruct p; cbn [Gate.step_thread Gate.command_lock Gate.threads].
  - (* Receiving *)
    destruct Hinv as [H0 | [H1 He]]; [now left|right]. split; [exact H1|].
    rewrite (set_nth_same_kind holds_flag _ t Gate.Receiving); auto.
    now destruct (Gate.sent_command io).
  - (* Polling *)
    destruct Hinv as [H0 | [H1 He]]; [now left|right]. split; [exact H1|].
    rewrite (set_nth_same_kind holds_flag _ t Gate.Polling); auto.
    now destruct (negb (Gate.command_lock c =? 0)).
  - (* Sleeping *)
    destruct Hinv as [H0 | [H1 He]]; [now left|right]. split; [exact H1|].
    rewrite (set_nth_same_kind holds_flag _ t Gate.Sleeping); auto.
  - (* Locking *)
    right. split; [reflexivity|]. now apply (set_nth_holds holds_flag _ t Gate.Locking).
  - (* Merging *)
    destruct Hinv as [H0 | [H1 He]]; [now left|right]. split; [exact H1|].
    now apply (set_nth_holds holds_flag _ t Gate.Merging).
  - (* Unlocking *)
    now left.
  - (* Sending *)
    destruct Hinv as [H0 | [H1 He]]; [now left|right]. split; [exact H1|].
    rewrite (set_nth_same_kind holds_flag _ t Gate.Sending); auto.
    now destruct (Gate.takes_data io).
  - (* Gone *)
    destruct Hinv as [H0 | [H1 He]]; [now left|right]. split; [exact H1|].
    rewrite (set_nth_same_kind holds_flag _ t Gate.Gone); auto.
Qed.

(** X19: however many sessions run and however they are scheduled, the flag
    only holds 0 or 1, and whenever it holds 1 some session is between its
    write of 1 and its write of 0: no session leaves the merge, or ends,
    with the flag still set by it. *)
Theorem flag_set_has_a_holder (n : nat) (schedule : list (nat * Gate.peer)) :
  let c := Gate.run (sessions_at_start n) schedule in
  Gate.command_lock c = 0 \/
  (Gate.command_lock c = 1 /\ existsb holds_flag (Gate.threads c) = true).
Proof.
  cbv zeta.
  assert (Hrun : forall sch c,
            Gate.command_lock c = 0 \/
            (Gate.command_lock c = 1 /\ existsb holds_flag (Gate.threads c) = true) ->
            Gate.command_lock (Gate.run c sch) = 0 \/
            (Gate.command_lock (Gate.run c sch) = 1 /\
             existsb holds_flag (Gate.threads (Gate.run c sch)) = true)).
  { induction sch as [|[t io] sch IH]; intros c Hc; cbn [Gate.run].
    - exact Hc.
    - apply IH. now apply step_keeps_holder. }
  apply Hrun. now left.
Qed.
